(** * RDM-waterbutler: the Nextcloud provider

    A shallow embedding of
    [waterbutler/providers/nextcloud/provider.py] (class [NextcloudProvider]).

    Coroutines are modelled in a state-and-exception monad over a [world]
    that holds the backend, the set of responses that are still open and
    the trace of requests.  The WebDAV server, the two body parsers of
    [waterbutler.providers.nextcloud.utils] and the body type are
    parameters of the development. *)

From Stdlib Require Import ZArith Lia Bool Ascii.
From stdpp Require Import base tactics option list strings gmap pretty.

Open Scope Z_scope.
Open Scope string_scope.

(** ** Exceptions ([waterbutler.core.exceptions] and Python built-ins) *)

Inductive exn : Type :=
| NotFoundError (path : string)
| MetadataError (code : Z)
| UploadError (code : Z)
| DeleteError (code : Z)
| DownloadError (code : Z)
| CreateFolderError (code : Z)
| IntraCopyError (code : Z)
| FolderNamingConflict (name : string)
| NamingConflict (name : string)
| NotImplementedError (msg : string)
| IndexError
| TypeError
| KeyError (key : string)
| ForeignError (msg : string).

Definition is_NotFoundError (e : exn) : bool :=
  match e with NotFoundError _ => true | _ => false end.

(** ** Strings *)

Definition slash : ascii := "/"%char.

(** [s.endswith('/')] *)
Fixpoint endswith_slash (s : string) : bool :=
  match s with
  | EmptyString => false
  | String c EmptyString => Ascii.eqb c slash
  | String _ s' => endswith_slash s'
  end.

(** [s.rstrip('/')] *)
Fixpoint rstrip_slash (s : string) : string :=
  match s with
  | EmptyString => EmptyString
  | String c s' =>
      match rstrip_slash s' with
      | EmptyString => if Ascii.eqb c slash then EmptyString else String c EmptyString
      | t => String c t
      end
  end.

(** [s.split('/')] *)
Fixpoint split_slash (s : string) : list string :=
  match s with
  | EmptyString => [EmptyString]
  | String c s' =>
      if Ascii.eqb c slash then EmptyString :: split_slash s'
      else match split_slash s' with
           | x :: xs => String c x :: xs
           | [] => [String c EmptyString]
           end
  end.

(** ['/'.join(l)] *)
Fixpoint join_slash (l : list string) : string :=
  match l with
  | [] => ""
  | [x] => x
  | x :: xs => x +:+ "/" +:+ join_slash xs
  end.

(** ** The path model *)

Inductive kind := file | folder.

Definition kind_eqb (a b : kind) : bool :=
  match a, b with file, file | folder, folder => true | _, _ => false end.

(** Modelled from the spec: the Path of [waterbutler.core.path], a module
    outside the verified sources.  A path is an ordered sequence of named
    segments, each optionally carrying a backend-native identifier; the last
    segment carries the folder flag.  [_prepend] is the storage root of the
    provider. *)
Record WaterButlerPathPart := mkPart {
  value : string;
  _id : option string
}.

Record WaterButlerPath := mkPath {
  _prepend : string;
  _parts : list WaterButlerPathPart;
  _is_folder : bool
}.

(** Modelled from the spec: the constructor [WaterButlerPath(path, prepend=...)]
    of [waterbutler.core.path].  The segments are those of the [/]-delimited
    string (the first one is the root segment), no segment carries an
    identifier yet, and the trailing slash decides whether the last segment
    is a folder. *)
Definition new_WaterButlerPath (path prepend : string) : WaterButlerPath :=
  {| _prepend := prepend;
     _parts := map (fun v => mkPart v None) (split_slash (rstrip_slash path));
     _is_folder := endswith_slash path |}.

(** Modelled from the spec: the attributes [is_dir], [is_folder], [kind],
    [name] and [identifier] of a path; the last two are those of its last
    segment. *)
Definition is_dir (p : WaterButlerPath) : bool := _is_folder p.
Definition is_folder (p : WaterButlerPath) : bool := _is_folder p.
Definition path_kind (p : WaterButlerPath) : kind :=
  if is_dir p then folder else file.

Definition last_part (p : WaterButlerPath) : WaterButlerPathPart :=
  List.last (_parts p) (mkPart "" None).

Definition name (p : WaterButlerPath) : string := value (last_part p).
Definition identifier (p : WaterButlerPath) : option string := _id (last_part p).

(** Python truthiness of [path.identifier] *)
Definition truthy (o : option string) : bool :=
  match o with
  | None | Some EmptyString => false
  | Some _ => true
  end.

Definition dir_suffix (p : WaterButlerPath) : string :=
  if is_dir p then "/" else "".

(** Modelled from the spec: [materialized_path], the full display path of an
    entity, independent of any backend identifier. *)
Definition path_materialized_path (p : WaterButlerPath) : string :=
  join_slash (map value (_parts p)) +:+ dir_suffix p.

(** Modelled from the spec: [full_path], the path below the provider's
    storage root ([prepend]). *)
Definition full_path (p : WaterButlerPath) : string :=
  join_slash (split_slash (rstrip_slash (_prepend p)) ++ map value (tail (_parts p)))
  +:+ dir_suffix p.

(** Modelled from the spec: [parent] strips the last segment and forces
    [is_folder = true]. *)
Definition parent (p : WaterButlerPath) : WaterButlerPath :=
  {| _prepend := _prepend p; _parts := removelast (_parts p); _is_folder := true |}.

(** [path._parts[-1]._id = v] *)
Fixpoint set_last_id (v : option string) (l : list WaterButlerPathPart)
  : list WaterButlerPathPart :=
  match l with
  | [] => []
  | [x] => [mkPart (value x) v]
  | x :: xs => x :: set_last_id v xs
  end.

Definition clear_identifier (p : WaterButlerPath) : WaterButlerPath :=
  {| _prepend := _prepend p; _parts := set_last_id None (_parts p);
     _is_folder := _is_folder p |}.

(** ** Provider instances *)

Inductive pyval :=
| PStr (s : string)
| PBool (b : bool).

Global Instance pyval_eq_dec : EqDecision pyval.
Proof. solve_decision. Defined.

Record NextcloudProvider := mkProvider {
  NAME : string;
  auth : gmap string pyval;
  credentials : gmap string pyval;
  settings : gmap string pyval;
  prov_folder : string;
  verify_ssl : pyval;
  url : string;
  _auth : pyval * pyval
}.

Definition getitem (d : gmap string pyval) (k : string) : exn + pyval :=
  match d !! k with
  | Some v => inr v
  | None => inl (KeyError k)
  end.

(** [NextcloudProvider.__init__].  The folder and the host are strings; a
    value of another type there is outside the model and is reported as
    [TypeError].  What [aiohttp.BasicAuth] refuses of a user name and a
    password is not modelled either: the pair is stored as it is. *)
Definition NextcloudProvider_init (nm : string) (au cr st : gmap string pyval)
  : exn + NextcloudProvider :=
  match getitem st "folder" with
  | inl e => inl e
  | inr (PBool _) => inl TypeError
  | inr (PStr f) =>
      let f := if endswith_slash f then f else f +:+ "/" in
      match getitem st "verify_ssl" with
      | inl e => inl e
      | inr vs =>
          match getitem cr "host" with
          | inl e => inl e
          | inr (PBool _) => inl TypeError
          | inr (PStr h) =>
              match getitem cr "username", getitem cr "password" with
              | inl e, _ | _, inl e => inl e
              | inr u, inr p =>
                  inr {| NAME := nm; auth := au; credentials := cr; settings := st;
                         prov_folder := f; verify_ssl := vs; url := h; _auth := (u, p) |}
              end
          end
      end
  end.

(** [_webdav_url_], [_dav_url_], [_ocs_url]: the end point appended to the
    host, with a slash in between unless the host ends with one.  These are
    the values of the properties for a non-empty host.  On an empty host
    [self.url[-1]] raises [IndexError] before anything is sent; the
    statements below that say what an operation sends or raises assume
    [url self <> ""]. *)
Definition _webdav_url_ (self : NextcloudProvider) : string :=
  if endswith_slash (url self) then url self +:+ "remote.php/webdav/"
  else url self +:+ "/remote.php/webdav/".

Definition _dav_url_ (self : NextcloudProvider) : string :=
  if endswith_slash (url self) then url self +:+ "remote.php/dav/"
  else url self +:+ "/remote.php/dav/".

Definition _ocs_url (self : NextcloudProvider) : string :=
  if endswith_slash (url self) then url self +:+ "ocs/v2.php/"
  else url self +:+ "/ocs/v2.php/".

(** Modelled from the spec: [BaseProvider.shares_storage_root] of
    [waterbutler.core.provider], a module outside the verified sources.  The
    docstring of the override says what it compares: the settings, which for
    this provider only include the root folder. *)
Definition base_shares_storage_root (self other : NextcloudProvider) : bool :=
  bool_decide (NAME self = NAME other) && bool_decide (settings self = settings other).

(** [NextcloudProvider.shares_storage_root] *)
Definition shares_storage_root (self other : NextcloudProvider) : bool :=
  base_shares_storage_root self other
  && bool_decide (credentials self = credentials other).

(** Modelled from the spec: [BaseProvider.__eq__] of
    [waterbutler.core.provider]: two providers are equal when they are the
    same backend account, that is the same backend type bound to the same
    credentials. *)
Definition provider_eq (self other : NextcloudProvider) : bool :=
  bool_decide (NAME self = NAME other)
  && bool_decide (credentials self = credentials other).

(** [can_intra_copy], [can_intra_move]: [return self == dest_provider] *)
Definition can_intra_copy (self dest_provider : NextcloudProvider) : bool :=
  provider_eq self dest_provider.

Definition can_intra_move (self dest_provider : NextcloudProvider) : bool :=
  provider_eq self dest_provider.

Definition can_duplicate_names (self : NextcloudProvider) : bool := true.

(** ** Renaming a destination *)

Definition dot : ascii := "."%char.

Fixpoint splitext_go (s : string) : string * option string :=
  match s with
  | EmptyString => (EmptyString, None)
  | String c s' =>
      match splitext_go s' with
      | (st, Some e) => (String c st, Some e)
      | (st, None) =>
          if Ascii.eqb c dot then (EmptyString, Some (String c st))
          else (String c st, None)
      end
  end.

(** [os.path.splitext]: leading dots do not start an extension *)
Fixpoint splitext (s : string) : string * string :=
  match s with
  | EmptyString => (EmptyString, EmptyString)
  | String c s' =>
      if Ascii.eqb c dot then
        let '(st, e) := splitext s' in (String c st, e)
      else
        let '(st, e) := splitext_go s in (st, default EmptyString e)
  end.

(** Modelled from the spec: the disambiguated name, a numeric counter
    appended to the name in front of its extension, as in [b (1).txt]. *)
Definition numbered_name (v : string) (n : nat) : string :=
  let '(st, e) := splitext v in
  st +:+ " (" +:+ pretty n +:+ ")" +:+ e.

Fixpoint set_last_value (v : string) (l : list WaterButlerPathPart)
  : list WaterButlerPathPart :=
  match l with
  | [] => []
  | [x] => [mkPart v (_id x)]
  | x :: xs => x :: set_last_value v xs
  end.

(** Modelled from the spec: [increment_name] of [waterbutler.core.path],
    which renames the last segment of a destination. *)
Definition increment_name (p : WaterButlerPath) (n : nat) : WaterButlerPath :=
  {| _prepend := _prepend p;
     _parts := set_last_value (numbered_name (name p) n) (_parts p);
     _is_folder := _is_folder p |}.

(** Modelled from the spec: a destination is in use when a child of its
    folder has its materialized path. *)
Definition in_use (taken : list string) (p : WaterButlerPath) : bool :=
  existsb (String.eqb (path_materialized_path p)) taken.

(** the first counter from [n] on that [used] rejects, looking at no more
    than [fuel] counters *)
Fixpoint first_free (used : nat -> bool) (fuel : nat) (n : nat) : nat :=
  match fuel with
  | O => n
  | S f => if used n then first_free used f (S n) else n
  end.

(** Modelled from the spec: the smallest counter, from 1 on, whose name is
    not in use among the children of the destination folder. *)
Definition free_counter (taken : list string) (p : WaterButlerPath) : nat :=
  first_free (fun n => in_use taken (increment_name p n)) (length taken) 1.

(** [d[k]] where a string is needed *)
Definition getstr (d : gmap string pyval) (k : string) : exn + string :=
  match d !! k with
  | Some (PStr v) => inr v
  | Some (PBool _) => inl TypeError
  | None => inl (KeyError k)
  end.

(** ** Metadata objects

    The classes of [waterbutler.providers.nextcloud.metadata] are built by
    the body parser, which is a parameter below; the provider reads and
    writes the attributes of this record. *)

Definition hashes := list (string * string).

#[warnings="-register-all"]
Inductive metadata := mkMeta {
  m_kind : kind;
  _href : string;
  m_path : string;
  materialized_path : string;
  fileid : string;
  etag : string;
  etag_noquote : string;
  m_size : option Z;
  extra : option hashes;
  children : option (list metadata)
}.

Definition is_file (m : metadata) : bool := kind_eqb (m_kind m) file.

(** [i.extra = {'hashes': h}] *)
Definition set_extra (m : metadata) (h : hashes) : metadata :=
  mkMeta (m_kind m) (_href m) (m_path m) (materialized_path m) (fileid m) (etag m)
         (etag_noquote m) (m_size m) (Some h) (children m).

(** [meta.children = l] *)
Definition set_children (m : metadata) (l : list metadata) : metadata :=
  mkMeta (m_kind m) (_href m) (m_path m) (materialized_path m) (fileid m) (etag m)
         (etag_noquote m) (m_size m) (extra m) (Some l).

(** the backend identifier replaced, everything else kept *)
Definition with_fileid (g : string -> string) (m : metadata) : metadata :=
  mkMeta (m_kind m) (_href m) (m_path m) (materialized_path m) (g (fileid m)) (etag m)
         (etag_noquote m) (m_size m) (extra m) (children m).

(** [metadata] returns one object for a file and a list for a folder *)
Inductive meta_result :=
| MetaOne (m : metadata)
| MetaList (l : list metadata).

(** [NextcloudFileRevisionMetadata.from_metadata(provider, revision, metadata)] *)
Record NextcloudFileRevisionMetadata := from_metadata {
  rev_provider : string;
  rev_version : string;
  rev_metadata : metadata
}.

(** ** Requests, responses and the world *)

Record request := mkRequest {
  method : string;
  req_url : string;
  req_data : option string;
  req_headers : list (string * string);
  req_params : list (string * string)
}.

Record stream := mkStream {
  stream_size : Z;
  stream_data : string
}.

Inductive event :=
| Sent (r : request)
| Released (h : nat).

Section Provider.

(** The body type, the server and the two parsers of
    [waterbutler.providers.nextcloud.utils]. *)
Context {Content B : Type}.
Variable serve : B -> request -> (Z * Content) * B.
Variable parse_dav_response : string -> Content -> string -> bool -> exn + list metadata.
Variable parse_checksum_response : Content -> exn + hashes.

Record response := mkResponse {
  handle : nat;
  status : Z;
  content : Content
}.

Record world := mkWorld {
  backend : B;
  opened : list nat;
  next_handle : nat;
  trace : list event
}.

(** *** The coroutine monad *)

Definition M (A : Type) : Type := world -> (exn + A) * world.

Definition ret {A} (a : A) : M A := fun w => (inr a, w).
Definition raise {A} (e : exn) : M A := fun w => (inl e, w).
Definition bind {A C} (m : M A) (k : A -> M C) : M C :=
  fun w => match m w with
           | (inr a, w') => k a w'
           | (inl e, w') => (inl e, w')
           end.
Definition lift {A} (r : exn + A) : M A := fun w => (r, w).

(** [try: m  except exceptions.NotFoundError: h] *)
Definition except_NotFoundError {A} (m : M A) (h : M A) : M A :=
  fun w => match m w with
           | (inl e, w') => if is_NotFoundError e then h w' else (inl e, w')
           | r => r
           end.

Notation "x <- y ; z" := (bind y (fun x => z))
  (at level 20, y at level 100, z at level 200, only parsing).
Notation "'await' y ; z" := (bind y (fun _ => z))
  (at level 20, y at level 100, z at level 200, only parsing).

Fixpoint mapM {A C} (f : A -> M C) (l : list A) : M (list C) :=
  match l with
  | [] => ret []
  | x :: xs => y <- f x ; ys <- mapM f xs ; ret (y :: ys)
  end.

Definition status_in (s : Z) (expects : list Z) : bool := existsb (Z.eqb s) expects.

(** Modelled from the spec: [BaseProvider.make_request] of
    [waterbutler.core.provider].
    The request is sent; a status among [expects] gives the open response to
    the caller, any other status is turned into the [throws] error, the
    response being released before the error is raised. *)
Definition make_request (req : request) (expects : list Z) (throws : Z -> exn)
  : M response :=
  fun w =>
    let '((st, body), b') := serve (backend w) req in
    let h := next_handle w in
    if status_in st expects then
      (inr (mkResponse h st body),
       mkWorld b' (h :: opened w) (S h) (trace w ++ [Sent req]))
    else
      (inl (throws st), mkWorld b' (opened w) (S h) (trace w ++ [Sent req])).

(** [await response.release()]; releasing twice is a no-op *)
Definition release (r : response) : M unit :=
  fun w =>
    (inr tt, mkWorld (backend w) (List.filter (fun h => negb (Nat.eqb h (handle r))) (opened w))
                     (next_handle w) (trace w ++ [Released (handle r)])).

(** [items[0]] *)
Definition first {A} (l : list A) : M A :=
  match l with
  | [] => raise IndexError
  | x :: _ => ret x
  end.

Definition plain (m u : string) : request := mkRequest m u None [] [].

(** *** Path validation *)

(** [NextcloudProvider.validate_v1_path] *)
Definition validate_v1_path (self : NextcloudProvider) (path : string)
  : M WaterButlerPath :=
  if String.eqb path "/" then ret (new_WaterButlerPath path (prov_folder self))
  else
    let full := new_WaterButlerPath path (prov_folder self) in
    response <- make_request (plain "PROPFIND" (_webdav_url_ self +:+ full_path full))
                             [200; 207; 404] MetadataError ;
    let content := content response in
    await release response ;
    if Z.eqb (status response) 404 then raise (NotFoundError (full_path full))
    else
      item <- except_NotFoundError
                (lift (parse_dav_response (NAME self) content "/" false))
                (raise (NotFoundError (full_path full))) ;
      item0 <- first item ;
      if negb (kind_eqb (path_kind full) (m_kind item0))
      then raise (NotFoundError (full_path full))
      else ret full.

(** [NextcloudProvider.validate_path] *)
Definition validate_path (self : NextcloudProvider) (path : string)
  : M WaterButlerPath :=
  if String.eqb path "/" then ret (new_WaterButlerPath path (prov_folder self))
  else
    let full := new_WaterButlerPath path (prov_folder self) in
    response <- make_request (plain "PROPFIND" (_webdav_url_ self +:+ full_path full))
                             [200; 207; 404] MetadataError ;
    let content := content response in
    await release response ;
    await except_NotFoundError
            (await lift (parse_dav_response (NAME self) content "/" false) ; ret tt)
            (ret tt) ;
    ret full.

(** *** Metadata *)

Definition checksum_request (self : NextcloudProvider) (params : list (string * string))
  : request :=
  mkRequest "GET" (_ocs_url self +:+ "apps/checksum_api/api/checksum") None
            [("OCS-APIRequest", "true")] params.

(** the body of the loop [for i in items] of [_metadata_folder] *)
Definition add_checksum (self : NextcloudProvider) (i : metadata) : M metadata :=
  if is_file i && String.eqb (NAME self) "nextcloudinstitutions" then
    response <- make_request
                  (checksum_request self [("path", _href i); ("hash", "md5,sha256,sha512")])
                  [200; 404] MetadataError ;
    i' <- (if Z.eqb (status response) 200 then
             h <- lift (parse_checksum_response (content response)) ;
             ret (set_extra i h)
           else ret i) ;
    await release response ;
    ret i'
  else ret i.

(** [NextcloudProvider._metadata_folder] *)
Definition _metadata_folder (self : NextcloudProvider) (path : WaterButlerPath)
  (skip_first : bool) : M (list metadata) :=
  response <- make_request (plain "PROPFIND" (_webdav_url_ self +:+ full_path path))
                           [204; 207] MetadataError ;
  items <- (if Z.eqb (status response) 207 then
              lift (parse_dav_response (NAME self) (content response)
                                       (prov_folder self) skip_first)
            else ret []) ;
  await release response ;
  mapM (add_checksum self) items.

(** [NextcloudProvider._metadata_file] *)
Definition _metadata_file (self : NextcloudProvider) (path : WaterButlerPath)
  : M metadata :=
  items <- _metadata_folder self path false ;
  first items.

(** [NextcloudProvider.metadata] *)
Definition metadata_ (self : NextcloudProvider) (path : WaterButlerPath)
  : M meta_result :=
  if is_dir path then l <- _metadata_folder self path true ; ret (MetaList l)
  else m <- _metadata_file self path ; ret (MetaOne m).

(** *** Name conflicts *)

(** Modelled from the spec: [BaseProvider.handle_name_conflict] of
    [waterbutler.core.provider].
    The children of the destination folder are listed.  Under [replace], or
    when no child has the destination name, the path is returned as it is
    with the existence flag; [warn] surfaces as [NamingConflict]; [keep]
    renames the destination with the smallest counter whose name is not in
    use among those children. *)
Definition handle_name_conflict (self : NextcloudProvider) (path : WaterButlerPath)
  (conflict : string) : M (WaterButlerPath * bool) :=
  siblings <- _metadata_folder self (parent path) true ;
  let taken := map materialized_path siblings in
  let exists_ := in_use taken path in
  if negb exists_ || String.eqb conflict "replace" then ret (path, exists_)
  else if String.eqb conflict "warn" then raise (NamingConflict (name path))
  else ret (increment_name path (free_counter taken path), false).

(** *** Revisions *)

(** the double quote character *)
Definition dq : string :=
  String (Ascii.Ascii false true false false false true false false) EmptyString.

(** the [PROPFIND] body of [_metadata_revision], character by character *)
Definition revision_query : string :=
  "<?xml version=" +:+ dq +:+ "1.0" +:+ dq +:+ " encoding=" +:+ dq +:+ "UTF-8" +:+
  dq +:+ "?> <d:propfind xmlns:d=" +:+ dq +:+ "DAV:" +:+ dq +:+ " xmlns:nc=" +:+ dq +:+
  "http://nextcloud.org/ns" +:+ dq +:+ " > <d:prop xmlns:oc=" +:+ dq +:+
  "http://owncloud.org/ns" +:+ dq +:+
  "> <d:getlastmodified/> <d:getcontentlength/> <d:resourcetype/> <d:getetag/> <d:getcontenttype/> <oc:fileid/>  </d:prop> </d:propfind>".

(** the checksum query of [_metadata_revision], for the file itself
    ([revision = None]) or for one of its revisions *)
Definition revision_checksum (self : NextcloudProvider) (path : WaterButlerPath)
  (revision : option string) (m : metadata) : M metadata :=
  response <- make_request
                (checksum_request self
                   ([("path", full_path path); ("hash", "md5,sha256,sha512")]
                    ++ match revision with Some r => [("revision", r)] | None => [] end))
                [200; 404] MetadataError ;
  m' <- (if Z.eqb (status response) 200 then
           h <- lift (parse_checksum_response (content response)) ;
           ret (set_extra m h)
         else ret m) ;
  await release response ;
  ret m'.

(** [NextcloudProvider._metadata_revision] *)
Definition _metadata_revision (self : NextcloudProvider) (path : WaterButlerPath)
  : M (list metadata) :=
  response <- make_request
                (mkRequest "PROPFIND" (_webdav_url_ self +:+ full_path path)
                           (Some revision_query) [] [])
                [204; 207] MetadataError ;
  items <- (if Z.eqb (status response) 207 then
              lift (parse_dav_response (NAME self) (content response)
                                       (prov_folder self) false)
            else ret []) ;
  await release response ;
  match items with
  | [item] =>
      item <- (if String.eqb (NAME self) "nextcloudinstitutions"
               then revision_checksum self path None item else ret item) ;
      let fileid := fileid item in
      username <- lift (getstr (credentials self) "username") ;
      response <- make_request
                    (plain "PROPFIND" (_dav_url_ self +:+ "versions/" +:+ username
                                       +:+ "/versions/" +:+ fileid))
                    [204; 207; 404] MetadataError ;
      revision_items <- (if Z.eqb (status response) 207 then
                           lift (parse_dav_response (NAME self) (content response)
                                                    (prov_folder self) true)
                         else ret []) ;
      await release response ;
      revision_items <- (if String.eqb (NAME self) "nextcloudinstitutions"
                         then mapM (fun rev => revision_checksum self path (Some (etag rev)) rev)
                                   revision_items
                         else ret revision_items) ;
      ret (item :: revision_items)
  | _ => ret items
  end.

(** [NextcloudProvider.revisions] *)
Definition revisions (self : NextcloudProvider) (path : WaterButlerPath)
  : M (list NextcloudFileRevisionMetadata) :=
  revisions <- _metadata_revision self path ;
  ret (map (fun r => from_metadata (NAME self) (etag_noquote r) r) revisions).

(** *** Transfers *)

(** [NextcloudProvider.download]: the open response is handed to the stream
    reader, which owns it from then on (the [range] of the caller only adds
    a header to the request and is left out). *)
Definition download (self : NextcloudProvider) (path : WaterButlerPath)
  (revision : option string) : M response :=
  match revision with
  | None =>
      make_request (plain "GET" (_webdav_url_ self +:+ full_path path))
                   [200; 206] DownloadError
  | Some etag =>
      revisions <- _metadata_revision self path ;
      r0 <- first revisions ;
      username <- lift (getstr (credentials self) "username") ;
      make_request
        (plain "GET" (_dav_url_ self +:+ "versions/" +:+ username +:+ "/versions/"
                      +:+ fileid r0 +:+ "/" +:+ etag))
        [200; 206] DownloadError
  end.

(** the first statement of [NextcloudProvider.upload]: the path the [PUT]
    is sent to *)
Definition upload_destination (self : NextcloudProvider) (path : WaterButlerPath)
  (conflict : string) : M WaterButlerPath :=
  if truthy (identifier path) && String.eqb conflict "keep" then
    r <- handle_name_conflict self path conflict ;
    ret (clear_identifier (fst r))
  else ret path.

Definition put_request (self : NextcloudProvider) (stream : stream) (path : WaterButlerPath)
  : request :=
  mkRequest "PUT" (_webdav_url_ self +:+ full_path path) (Some (stream_data stream))
            [("Content-Length", pretty (stream_size stream))] [].

(** [NextcloudProvider.upload] *)
Definition upload (self : NextcloudProvider) (stream : stream) (path : WaterButlerPath)
  (conflict : string) : M (meta_result * bool) :=
  path <- upload_destination self path conflict ;
  response <- make_request (put_request self stream path) [201; 204] UploadError ;
  await release response ;
  meta <- metadata_ self path ;
  ret (meta, Z.eqb (status response) 201).

(** [NextcloudProvider.delete] *)
Definition delete_ (self : NextcloudProvider) (path : WaterButlerPath) : M unit :=
  delete_resp <- make_request (plain "DELETE" (_webdav_url_ self +:+ full_path path))
                              [204] DeleteError ;
  await release delete_resp ;
  ret tt.

(** [[m for m in meta if key(m) == wanted][0]]; iterating over a single
    metadata object is a [TypeError] *)
Definition select_child (key : metadata -> string) (wanted : string) (l : list metadata)
  : list metadata :=
  List.filter (fun m => String.eqb (key m) wanted) l.

Definition iterate (r : meta_result) : M (list metadata) :=
  match r with
  | MetaList l => ret l
  | MetaOne _ => raise TypeError
  end.

(** [NextcloudProvider.create_folder] *)
Definition create_folder (self : NextcloudProvider) (path : WaterButlerPath)
  : M metadata :=
  resp <- make_request (plain "MKCOL" (_webdav_url_ self +:+ full_path path))
                       [201; 405] CreateFolderError ;
  await release resp ;
  if Z.eqb (status resp) 405 then raise (FolderNamingConflict (name path))
  else
    meta <- metadata_ self (parent path) ;
    l <- iterate meta ;
    first (select_child m_path (path_materialized_path path) l).

(** the value stored by [meta.children = file_meta] *)
Definition children_value (r : meta_result) : list metadata :=
  match r with
  | MetaList l => l
  | MetaOne m => [m]
  end.

(** [NextcloudProvider._do_dav_move_copy] *)
Definition _do_dav_move_copy (self : NextcloudProvider) (src_path dest_path : WaterButlerPath)
  (operation : string) : M (meta_result * bool) :=
  if negb (String.eqb operation "MOVE") && negb (String.eqb operation "COPY") then
    raise (NotImplementedError "Nextcloud move/copy only supports MOVE and COPY endpoints")
  else
    resp <- make_request
              (mkRequest operation (_webdav_url_ self +:+ full_path src_path) None
                         [("Destination", "/remote.php/webdav" +:+ full_path dest_path)] [])
              [201; 204] IntraCopyError ;
    await release resp ;
    file_meta <- metadata_ self dest_path ;
    meta <- (if is_folder dest_path then
               parent_meta <- metadata_ self (parent dest_path) ;
               l <- iterate parent_meta ;
               meta <- first (select_child materialized_path
                                           (path_materialized_path dest_path) l) ;
               ret (MetaOne (set_children meta (children_value file_meta)))
             else ret file_meta) ;
    ret (meta, Z.eqb (status resp) 201).

(** [intra_copy], [intra_move] *)
Definition intra_copy (self dest_provider : NextcloudProvider)
  (src_path dest_path : WaterButlerPath) : M (meta_result * bool) :=
  _do_dav_move_copy self src_path dest_path "COPY".

Definition intra_move (self dest_provider : NextcloudProvider)
  (src_path dest_path : WaterButlerPath) : M (meta_result * bool) :=
  _do_dav_move_copy self src_path dest_path "MOVE".

(** *** What the server says about a path

    The lookup that both validations send for [path], the answer of the
    server to it in the world [w], and what the body parser makes of that
    answer. *)

Definition lookup_request (self : NextcloudProvider) (path : string) : request :=
  plain "PROPFIND"
        (_webdav_url_ self +:+ full_path (new_WaterButlerPath path (prov_folder self))).

Definition lookup_status (self : NextcloudProvider) (path : string) (w : world) : Z :=
  fst (fst (serve (backend w) (lookup_request self path))).

Definition lookup_items (self : NextcloudProvider) (path : string) (w : world)
  : exn + list metadata :=
  parse_dav_response (NAME self)
                     (snd (fst (serve (backend w) (lookup_request self path)))) "/" false.

(** the world after the lookup of a path that is not the root *)
Definition looked_up (self : NextcloudProvider) (path : string) (w : world) : world :=
  let h := next_handle w in
  mkWorld (snd (serve (backend w) (lookup_request self path)))
          (List.filter (fun h' => negb (Nat.eqb h' h)) (h :: opened w))
          (S h)
          ((trace w ++ [Sent (lookup_request self path)]) ++ [Released h]).

(** [path] resolves to the object [item]: the server knows the path (200 or
    207) and [item] is the first entry of its answer.  The root is not
    looked up. *)
Definition resolves_to (self : NextcloudProvider) (path : string) (w : world)
  (item : metadata) : Prop :=
  path <> "/" /\
  (lookup_status self path w = 200 \/ lookup_status self path w = 207) /\
  exists rest, lookup_items self path w = inr (item :: rest).

(** [path] resolves to no object: the server answers 404, or the parser
    finds nothing in its answer.  The root is always there. *)
Definition absent (self : NextcloudProvider) (path : string) (w : world) : Prop :=
  path <> "/" /\
  (lookup_status self path w = 404 \/
   ((lookup_status self path w = 200 \/ lookup_status self path w = 207) /\
    exists msg, lookup_items self path w = inl (NotFoundError msg))).

(** the kind that the trailing slash of [path] asks for *)
Definition hinted_kind (path : string) : kind :=
  if endswith_slash path then folder else file.

(** the parser raises nothing but [NotFoundError] on the answer *)
Definition parser_quiet (self : NextcloudProvider) (path : string) (w : world) : Prop :=
  forall e, lookup_items self path w = inl e -> is_NotFoundError e = true.

(** an exception that one of the body parsers raises on some body *)
Definition parser_raises (e : exn) : Prop :=
  (exists provider c fld skip, parse_dav_response provider c fld skip = inl e) \/
  (exists c, parse_checksum_response c = inl e).

(** *** Open responses

    Every open response was handed out by an earlier request. *)
Definition handles_fresh (w : world) : Prop :=
  Forall (fun h => (h < next_handle w)%nat) (opened w).

(** the result [r] of a run from [w] leaves exactly the responses [o] open,
    unless it is an exception among [leaky] *)
Definition settled (leaky : exn -> Prop) {A} (o : list nat) (w : world)
  (r : (exn + A) * world) : Prop :=
  handles_fresh (snd r) /\
  (next_handle w <= next_handle (snd r))%nat /\
  (opened (snd r) = o \/ exists e, fst r = inl e /\ leaky e).

(** [m] releases every response it opens *)
Definition balanced (leaky : exn -> Prop) {A} (m : M A) : Prop :=
  forall w, handles_fresh w -> settled leaky (opened w) w (m w).

(** [m] releases the response [r], which it finds open, and every response
    it opens *)
Definition closes (leaky : exn -> Prop) {A} (r : response) (m : M A) : Prop :=
  forall w o, opened w = handle r :: o -> handles_fresh w -> ~ In (handle r) o ->
              settled leaky o w (m w).

(** [m] does not touch the world, and raises nothing but [leaky] *)
Definition pure_step {A} (m : M A) : Prop := forall w, snd (m w) = w.

Definition raises_only (leaky : exn -> Prop) {A} (m : M A) : Prop :=
  forall w e, fst (m w) = inl e -> leaky e.

Definition never (e : exn) : Prop := False.

End Provider.

Arguments mkResponse {Content}.
Arguments status_in : simpl never.
Arguments mkWorld {B}.

(** ** A WebDAV server to run the provider against

    The provider above is independent of the server.  The examples run it
    against the small in-memory server below: resources are kept by their
    host-relative URL, [PUT] answers 201 when it creates and 204 when it
    replaces, [MKCOL] answers 405 on an existing name, [COPY] and [MOVE]
    answer 201 or 204 in the same way (RFC 4918). *)

Module Dav.

Inductive body :=
| Multistatus (l : list (string * kind * string))
| NotFoundBody
| Garbled
| NoBody.

Definition store := list (string * (kind * string)).

Fixpoint squeeze (s : string) : string :=
  match s with
  | String c (String d _ as s') =>
      if Ascii.eqb c slash && Ascii.eqb d slash then squeeze s' else String c (squeeze s')
  | _ => s
  end.

Fixpoint from_first_slash (s : string) : string :=
  match s with
  | EmptyString => EmptyString
  | String c s' => if Ascii.eqb c slash then s else from_first_slash s'
  end.

Fixpoint has_slash (s : string) : bool :=
  match s with
  | EmptyString => false
  | String c s' => Ascii.eqb c slash || has_slash s'
  end.

Fixpoint drop_string (n : nat) (s : string) : string :=
  match n, s with
  | S n', String _ s' => drop_string n' s'
  | _, _ => s
  end.

Definition key_of (u : string) : string := rstrip_slash (squeeze (from_first_slash u)).

Fixpoint find_res (k : string) (s : store) : option (kind * string) :=
  match s with
  | [] => None
  | (k', r) :: s' => if String.eqb k' k then Some r else find_res k s'
  end.

Definition holds (s : store) (u : string) : bool :=
  match find_res (key_of u) s with Some _ => true | None => false end.

Definition is_under (pk k : string) : bool := String.prefix (pk +:+ "/") k.

Definition is_child (pk k : string) : bool :=
  is_under pk k &&
  (let rest := drop_string (String.length pk + 1) k in
   negb (String.eqb rest "") && negb (has_slash rest)).

Definition without (k : string) (s : store) : store :=
  List.filter (fun e => negb (String.eqb (fst e) k) && negb (is_under k (fst e))) s.

Definition put (k : string) (r : kind * string) (s : store) : store :=
  (k, r) :: List.filter (fun e => negb (String.eqb (fst e) k)) s.

Definition entry_of (e : string * (kind * string)) : string * kind * string :=
  let '(k, (kd, d)) := e in
  (k +:+ (match kd with folder => "/" | file => "" end), kd, d).

Definition listing (k : string) (r : kind * string) (s : store)
  : list (string * kind * string) :=
  entry_of (k, r) :: map entry_of (List.filter (fun e => is_child k (fst e)) s).

Fixpoint header (h : string) (l : list (string * string)) : option string :=
  match l with
  | [] => None
  | (k, v) :: l' => if String.eqb k h then Some v else header h l'
  end.

Definition transfer (move : bool) (k dk : string) (r : kind * string) (s : store) : store :=
  let tree := List.filter (fun e => is_under k (fst e)) s in
  let copied := map (fun e => (dk +:+ drop_string (String.length k) (fst e), snd e)) tree in
  (dk, r) :: copied ++ without dk (if move then without k s else s).

Definition serve (s : store) (req : request) : (Z * body) * store :=
  let k := key_of (req_url req) in
  let m := method req in
  if String.eqb m "PROPFIND" then
    match find_res k s with
    | Some r => ((207, Multistatus (listing k r s)), s)
    | None => ((404, NotFoundBody), s)
    end
  else if String.eqb m "PUT" then
    let r := (file, default "" (req_data req)) in
    match find_res k s with
    | Some _ => ((204, NoBody), put k r s)
    | None => ((201, NoBody), put k r s)
    end
  else if String.eqb m "DELETE" then
    match find_res k s with
    | Some _ => ((204, NoBody), without k s)
    | None => ((404, NotFoundBody), s)
    end
  else if String.eqb m "MKCOL" then
    match find_res k s with
    | Some _ => ((405, NoBody), s)
    | None => ((201, NoBody), put k (folder, "") s)
    end
  else if String.eqb m "COPY" || String.eqb m "MOVE" then
    match find_res k s, header "Destination" (req_headers req) with
    | Some r, Some d =>
        let dk := rstrip_slash (squeeze d) in
        ((if holds s d then 204 else 201, NoBody),
         transfer (String.eqb m "MOVE") k dk r s)
    | _, _ => ((404, NotFoundBody), s)
    end
  else ((404, NotFoundBody), s).

(** the body parsers the examples use: [href]s are host-relative, and the
    path shown to the user is the [href] below the WebDAV end point and the
    provider's folder *)
Definition strip_dav_path (href fld : string) : string :=
  drop_string (String.length "/remote.php/webdav" + String.length (rstrip_slash fld)) href.

Definition item_of (fld : string) (e : string * kind * string) : metadata :=
  let '(href, kd, d) := e in
  mkMeta kd href (strip_dav_path href fld) (strip_dav_path href fld)
         ("id:" +:+ href) ("etag:" +:+ d) d
         (match kd with file => Some (Z.of_nat (String.length d)) | folder => None end)
         None None.

Definition parse_dav_response (provider : string) (c : body) (fld : string)
  (skip_first : bool) : exn + list metadata :=
  match c with
  | Multistatus l => inr (map (item_of fld) (if skip_first then tail l else l))
  | NotFoundBody => inl (NotFoundError "")
  | Garbled | NoBody => inl (ForeignError "ParseError")
  end.

Definition parse_checksum_response (c : body) : exn + hashes :=
  inl (ForeignError "ParseError").

Definition init (s : store) : @world store := mkWorld s [] 0%nat [].

(** a provider bound to the account [user] on host [h], rooted at [/] *)
Definition account (user : string) : NextcloudProvider :=
  {| NAME := "nextcloud"; auth := ∅;
     credentials := {[ "host" := PStr "h"; "username" := PStr user;
                       "password" := PStr "secret" ]};
     settings := {[ "folder" := PStr "/"; "verify_ssl" := PBool true ]};
     prov_folder := "/"; verify_ssl := PBool true; url := "h";
     _auth := (PStr user, PStr "secret") |}.

End Dav.

(** A scripted server, in the manner of the test fixtures: the registered
    answers are served in order, whatever the request. *)
Module Script.

Definition serve (q : list (Z * Dav.body)) (req : request)
  : (Z * Dav.body) * list (Z * Dav.body) :=
  match q with
  | r :: q' => (r, q')
  | [] => ((500, Dav.NoBody), [])
  end.

Definition init (q : list (Z * Dav.body)) : @world (list (Z * Dav.body)) :=
  mkWorld q [] 0%nat [].

End Script.

(** ** Accounts, stores and paths of the examples *)

Module Fixture.

Definition alice : NextcloudProvider := Dav.account "alice".
Definition bob : NextcloudProvider := Dav.account "bob".

Definition dav (u : string) : string := "/remote.php/webdav" +:+ u.

(** the root with an empty folder [/a/] *)
Definition empty_a : Dav.store :=
  [(dav "", (folder, "")); (dav "/a", (folder, ""))].

(** the folder [/a/] with the files [b.txt] (10 bytes) and [b (1).txt] *)
Definition store0 : Dav.store :=
  [(dav "", (folder, "")); (dav "/a", (folder, ""));
   (dav "/a/b.txt", (file, "0123456789")); (dav "/a/b (1).txt", (file, "x"))].

Definition b_txt : WaterButlerPath := new_WaterButlerPath "/a/b.txt" "/".

(** the same path, its last segment carrying an identifier *)
Definition b_txt_identified : WaterButlerPath :=
  mkPath "/" [mkPart "" None; mkPart "a" None; mkPart "b.txt" (Some "id7")] false.

Definition a_dir : WaterButlerPath := new_WaterButlerPath "/a/" "/".
Definition c_dir : WaterButlerPath := new_WaterButlerPath "/c/" "/".



Definition ten : stream := mkStream 10 "0123456789".
Definition five : stream := mkStream 5 "abcde".

End Fixture.

(** * Properties *)

(** ** Strings and paths *)

Example split_slash_example : split_slash (rstrip_slash "/a/b.txt") = [""; "a"; "b.txt"].
Proof. reflexivity. Qed.

Example full_path_example :
  full_path (new_WaterButlerPath "/a/b.txt" "/my_folder/") = "/my_folder/a/b.txt" /\
  path_materialized_path (new_WaterButlerPath "/a/" "/my_folder/") = "/a/" /\
  path_materialized_path (new_WaterButlerPath "/" "/my_folder/") = "/".
Proof. repeat split. Qed.

Example numbered_name_example :
  numbered_name "b.txt" 1 = "b (1).txt" /\
  numbered_name "a.tar.gz" 12 = "a.tar (12).gz" /\
  numbered_name ".profile" 2 = ".profile (2)".
Proof. repeat split; vm_compute; reflexivity. Qed.

Example free_counter_example :
  free_counter ["/a/b.txt"; "/a/b (1).txt"; "/a/b (3).txt"] Fixture.b_txt = 2%nat.
Proof. vm_compute. reflexivity. Qed.

Example revision_query_example :
  String.length revision_query = 277%nat /\
  String.prefix ("<?xml version=" +:+ dq +:+ "1.0" +:+ dq) revision_query = true.
Proof. split; vm_compute; reflexivity. Qed.

Lemma eqb_slash_neq (path : string) : String.eqb path "/" = false <-> path <> "/".
Proof. apply String.eqb_neq. Qed.

Lemma new_path_kind (path prepend : string) :
  path_kind (new_WaterButlerPath path prepend) = hinted_kind path.
Proof. reflexivity. Qed.

Lemma kind_eqb_eq (a b : kind) : kind_eqb a b = true <-> a = b.
Proof. destruct a, b; simpl; split; congruence. Qed.

Lemma kind_eqb_neq (a b : kind) : kind_eqb a b = false <-> a <> b.
Proof. destruct a, b; simpl; split; congruence. Qed.

(** ** Renaming: the counter that [keep] picks *)

Lemma string_length_app (s t : string) :
  String.length (s +:+ t) = (String.length s + String.length t)%nat.
Proof. induction s as [|c s IH]; simpl; [reflexivity|]. rewrite IH. reflexivity. Qed.

Lemma string_app_inv_tail (s1 s2 t : string) : s1 +:+ t = s2 +:+ t -> s1 = s2.
Proof.
  revert s2. induction s1 as [|c s1 IH]; intros [|d s2] H.
  - reflexivity.
  - apply (f_equal String.length) in H.
    change (String.length t = S (String.length (s2 +:+ t))) in H.
    rewrite string_length_app in H. lia.
  - apply (f_equal String.length) in H.
    change (S (String.length (s1 +:+ t)) = String.length t) in H.
    rewrite string_length_app in H. lia.
  - change (String c (s1 +:+ t) = String d (s2 +:+ t)) in H.
    injection H as -> H. f_equal. apply IH. assumption.
Qed.

Lemma numbered_name_inj (v : string) (n m : nat) :
  numbered_name v n = numbered_name v m -> n = m.
Proof.
  unfold numbered_name. destruct (splitext v) as [st e]. intros H.
  apply String.app_inj in H. apply String.app_inj in H.
  apply string_app_inv_tail in H. apply (inj pretty) in H. assumption.
Qed.

Lemma set_last_value_nonempty (v : string) (l : list WaterButlerPathPart) :
  l <> [] -> set_last_value v l <> [].
Proof. destruct l as [|x [|y l]]; simpl; congruence. Qed.

Lemma join_set_last_value_inj (l : list WaterButlerPathPart) (a b : string) :
  l <> [] ->
  join_slash (map value (set_last_value a l)) = join_slash (map value (set_last_value b l)) ->
  a = b.
Proof.
  induction l as [|x l IH]; intros Hne H; [congruence|].
  destruct l as [|y l]; [exact H|].
  change (set_last_value a (x :: y :: l)) with (x :: set_last_value a (y :: l)) in H.
  change (set_last_value b (x :: y :: l)) with (x :: set_last_value b (y :: l)) in H.
  assert (y :: l <> []) as Hyl by congruence.
  pose proof (set_last_value_nonempty a (y :: l) Hyl) as Ha.
  pose proof (set_last_value_nonempty b (y :: l) Hyl) as Hb.
  destruct (set_last_value a (y :: l)) as [|a1 al] eqn:Ea; [congruence|].
  destruct (set_last_value b (y :: l)) as [|b1 bl] eqn:Eb; [congruence|].
  cbn [map] in H.
  change (join_slash (value x :: value a1 :: map value al))
    with (value x +:+ "/" +:+ join_slash (map value (a1 :: al))) in H.
  change (join_slash (value x :: value b1 :: map value bl))
    with (value x +:+ "/" +:+ join_slash (map value (b1 :: bl))) in H.
  apply String.app_inj in H. apply String.app_inj in H.
  apply IH; [assumption|]. exact H.
Qed.

(** different counters give different destinations *)
Lemma increment_name_inj (p : WaterButlerPath) (n m : nat) :
  _parts p <> [] ->
  path_materialized_path (increment_name p n) = path_materialized_path (increment_name p m) ->
  n = m.
Proof.
  intros Hne H. unfold path_materialized_path, increment_name in H. simpl in H.
  change (dir_suffix _) with (dir_suffix p) in H at 1.
  change (dir_suffix {| _prepend := _prepend p;
                        _parts := set_last_value (numbered_name (name p) m) (_parts p);
                        _is_folder := _is_folder p |}) with (dir_suffix p) in H.
  apply string_app_inv_tail in H.
  apply join_set_last_value_inj in H; [|assumption].
  apply numbered_name_inj in H. assumption.
Qed.

Lemma in_use_In (taken : list string) (p : WaterButlerPath) :
  in_use taken p = true <-> In (path_materialized_path p) taken.
Proof.
  unfold in_use. rewrite existsb_exists. split.
  - intros (x & Hin & Heq). apply String.eqb_eq in Heq. subst. assumption.
  - intros Hin. exists (path_materialized_path p). split; [assumption|].
    apply String.eqb_refl.
Qed.

Lemma first_free_spec (used : nat -> bool) (fuel n : nat) :
  let r := first_free used fuel n in
  (n <= r <= n + fuel)%nat /\
  (forall k, (n <= k < r)%nat -> used k = true) /\
  ((r < n + fuel)%nat -> used r = false).
Proof.
  revert n. induction fuel as [|fuel IH]; intros n; simpl.
  - repeat split; intros; lia.
  - destruct (used n) eqn:Hn.
    + destruct (IH (S n)) as (Hr & Hbelow & Hfree). repeat split; try lia.
      * intros k Hk. destruct (decide (k = n)) as [->|]; [assumption|].
        apply Hbelow. lia.
      * intros Hlt. apply Hfree. lia.
    + repeat split; intros; try lia. assumption.
Qed.

(** the counter picked is not in use: among [length taken + 1] different
    destinations one is not taken *)
Lemma free_counter_free (taken : list string) (p : WaterButlerPath) :
  _parts p <> [] ->
  in_use taken (increment_name p (free_counter taken p)) = false.
Proof.
  intros Hne. unfold free_counter.
  set (used := fun n => in_use taken (increment_name p n)).
  destruct (first_free_spec used (length taken) 1) as (Hr & Hbelow & Hfree).
  set (r := first_free used (length taken) 1) in *.
  change (used r = false).
  destruct (decide (r < 1 + length taken)%nat) as [Hlt|Hge]; [auto|].
  destruct (used r) eqn:Hused; [exfalso|reflexivity].
  set (cand := fun n => path_materialized_path (increment_name p n)).
  assert (NoDup (map cand (seq 1 (S (length taken))))) as Hnd.
  { apply NoDup_fmap_2_strong; [|apply NoDup_seq].
    intros x y _ _ Hxy. eapply increment_name_inj; eassumption. }
  assert (List.incl (map cand (seq 1 (S (length taken)))) taken) as Hincl.
  { intros c Hc. apply in_map_iff in Hc as (k & <- & Hk). apply in_seq in Hk.
    apply in_use_In. destruct (decide (k = r)) as [->|]; [assumption|].
    apply Hbelow. lia. }
  apply NoDup_ListNoDup in Hnd.
  pose proof (List.NoDup_incl_length Hnd Hincl) as Hlen.
  rewrite length_map, length_seq in Hlen. lia.
Qed.

(** and it is the smallest such counter *)
Lemma free_counter_least (taken : list string) (p : WaterButlerPath) (k : nat) :
  (1 <= k < free_counter taken p)%nat -> in_use taken (increment_name p k) = true.
Proof.
  intros Hk. unfold free_counter in Hk.
  destruct (first_free_spec (fun n => in_use taken (increment_name p n)) (length taken) 1)
    as (_ & Hbelow & _).
  apply Hbelow. assumption.
Qed.

Lemma free_counter_positive (taken : list string) (p : WaterButlerPath) :
  (1 <= free_counter taken p)%nat.
Proof.
  unfold free_counter.
  destruct (first_free_spec (fun n => in_use taken (increment_name p n)) (length taken) 1)
    as (Hr & _). lia.
Qed.

Lemma set_last_id_values (v : option string) (l : list WaterButlerPathPart) :
  map value (set_last_id v l) = map value l.
Proof.
  induction l as [|x l IH]; [reflexivity|].
  destruct l as [|y l]; [reflexivity|].
  change (set_last_id v (x :: y :: l)) with (x :: set_last_id v (y :: l)).
  cbn [map]. rewrite IH. reflexivity.
Qed.

Lemma last_set_last_id (v : option string) (l : list WaterButlerPathPart)
  (d : WaterButlerPathPart) :
  l <> [] -> List.last (set_last_id v l) d = mkPart (value (List.last l d)) v.
Proof.
  induction l as [|x l IH]; intros Hne; [congruence|].
  destruct l as [|y l]; [reflexivity|].
  change (set_last_id v (x :: y :: l)) with (x :: set_last_id v (y :: l)).
  assert (y :: l <> []) as Hyl by congruence.
  specialize (IH Hyl).
  destruct (set_last_id v (y :: l)) as [|z zs] eqn:Ez.
  - destruct l; discriminate.
  - change (List.last (x :: z :: zs) d) with (List.last (z :: zs) d). rewrite IH.
    reflexivity.
Qed.

Lemma last_set_last_value (v : string) (l : list WaterButlerPathPart)
  (d : WaterButlerPathPart) :
  l <> [] -> List.last (set_last_value v l) d = mkPart v (_id (List.last l d)).
Proof.
  induction l as [|x l IH]; intros Hne; [congruence|].
  destruct l as [|y l]; [reflexivity|].
  change (set_last_value v (x :: y :: l)) with (x :: set_last_value v (y :: l)).
  assert (y :: l <> []) as Hyl by congruence.
  specialize (IH Hyl).
  destruct (set_last_value v (y :: l)) as [|z zs] eqn:Ez.
  - destruct l; discriminate.
  - change (List.last (x :: z :: zs) d) with (List.last (z :: zs) d). rewrite IH.
    reflexivity.
Qed.

(** stripping the identifier leaves no identifier, and changes neither the
    name nor the path shown to the user *)
Lemma identifier_clear_identifier (p : WaterButlerPath) :
  identifier (clear_identifier p) = None.
Proof.
  unfold identifier, last_part, clear_identifier. simpl.
  destruct (_parts p) as [|x l] eqn:E; [reflexivity|].
  rewrite last_set_last_id by congruence. reflexivity.
Qed.

Lemma materialized_path_clear_identifier (p : WaterButlerPath) :
  path_materialized_path (clear_identifier p) = path_materialized_path p.
Proof.
  unfold path_materialized_path, clear_identifier. simpl.
  rewrite set_last_id_values. reflexivity.
Qed.

Lemma name_clear_identifier (p : WaterButlerPath) :
  name (clear_identifier p) = name p.
Proof.
  unfold name, last_part, clear_identifier. simpl.
  destruct (_parts p) as [|x l] eqn:E; [reflexivity|].
  rewrite last_set_last_id by congruence. reflexivity.
Qed.

Lemma name_increment_name (p : WaterButlerPath) (n : nat) :
  _parts p <> [] -> name (increment_name p n) = numbered_name (name p) n.
Proof.
  intros Hne. unfold name at 1, last_part, increment_name. simpl.
  rewrite last_set_last_value by assumption. reflexivity.
Qed.

Lemma truthy_identifier_parts (p : WaterButlerPath) :
  truthy (identifier p) = true -> _parts p <> [].
Proof.
  unfold identifier, last_part. intros H E. rewrite E in H. discriminate.
Qed.

Lemma in_use_clear_identifier (taken : list string) (p : WaterButlerPath) :
  in_use taken (clear_identifier p) = in_use taken p.
Proof. unfold in_use. rewrite materialized_path_clear_identifier. reflexivity. Qed.

(** the selection of a child by its materialized path does not look at the
    backend identifiers *)
Lemma select_child_with_fileid (g : string -> string) (wanted : string)
  (l : list metadata) :
  select_child materialized_path wanted (map (with_fileid g) l)
  = map (with_fileid g) (select_child materialized_path wanted l).
Proof.
  unfold select_child. induction l as [|m l IH]; [reflexivity|].
  simpl. destruct (String.eqb (materialized_path m) wanted); simpl; rewrite IH; reflexivity.
Qed.

Section ProviderFacts.

Context {Content B : Type}.
Variable serve : B -> request -> (Z * Content) * B.
Variable parse_dav_response : string -> Content -> string -> bool -> exn + list metadata.
Variable parse_checksum_response : Content -> exn + hashes.

Local Abbreviation validate_v1_path := (validate_v1_path serve parse_dav_response).
Local Abbreviation validate_path := (validate_path serve parse_dav_response).
Local Abbreviation lookup_status := (lookup_status serve).
Local Abbreviation looked_up := (looked_up serve).
Local Abbreviation lookup_items := (lookup_items serve parse_dav_response).
Local Abbreviation resolves_to := (resolves_to serve parse_dav_response).
Local Abbreviation absent := (absent serve parse_dav_response).
Local Abbreviation parser_quiet := (parser_quiet serve parse_dav_response).
Local Abbreviation _metadata_folder :=
  (_metadata_folder serve parse_dav_response parse_checksum_response).
Local Abbreviation _metadata_file :=
  (_metadata_file serve parse_dav_response parse_checksum_response).
Local Abbreviation metadata_ := (metadata_ serve parse_dav_response parse_checksum_response).

Ltac run :=
  unfold bind, ret, raise, lift, release, make_request, except_NotFoundError, first in *;
  simpl in *.

(** [validate_v1_path] as a function of the answer of the server *)
Lemma validate_v1_path_cases (self : NextcloudProvider) (path : string) (w : world) :
  path <> "/" ->
  validate_v1_path self path w =
  let full := new_WaterButlerPath path (prov_folder self) in
  let st := lookup_status self path w in
  if negb (status_in st [200; 207; 404]) then
    (inl (MetadataError st),
     mkWorld (snd (serve (backend w) (lookup_request self path))) (opened w)
             (S (next_handle w)) (trace w ++ [Sent (lookup_request self path)]))
  else if Z.eqb st 404 then (inl (NotFoundError (full_path full)), looked_up self path w)
  else match lookup_items self path w with
       | inl e => (inl (if is_NotFoundError e then NotFoundError (full_path full) else e),
                   looked_up self path w)
       | inr [] => (inl IndexError, looked_up self path w)
       | inr (item :: _) =>
           if kind_eqb (hinted_kind path) (m_kind item)
           then (inr full, looked_up self path w)
           else (inl (NotFoundError (full_path full)), looked_up self path w)
       end.
Proof.
  intros Hne. apply eqb_slash_neq in Hne.
  unfold validate_v1_path, lookup_status, lookup_items,
    looked_up. rewrite Hne.
  fold (lookup_request self path). run.
  destruct (serve (backend w) (lookup_request self path)) as [[st body] b'] eqn:Hs.
  simpl. destruct (status_in st [200; 207; 404]); simpl; [|reflexivity].
  destruct (Z.eqb st 404); [reflexivity|].
  destruct (parse_dav_response (NAME self) body "/" false) as [e|[|item rest]];
    simpl; try reflexivity.
  - destruct (is_NotFoundError e); reflexivity.
  - rewrite new_path_kind.
    destruct (kind_eqb (hinted_kind path) (m_kind item)); reflexivity.
Qed.

(** [validate_path] as a function of the answer of the server *)
Lemma validate_path_cases (self : NextcloudProvider) (path : string) (w : world) :
  path <> "/" ->
  validate_path self path w =
  let full := new_WaterButlerPath path (prov_folder self) in
  let st := lookup_status self path w in
  if negb (status_in st [200; 207; 404]) then
    (inl (MetadataError st),
     mkWorld (snd (serve (backend w) (lookup_request self path))) (opened w)
             (S (next_handle w)) (trace w ++ [Sent (lookup_request self path)]))
  else match lookup_items self path w with
       | inl e => (if is_NotFoundError e then inr full else inl e, looked_up self path w)
       | inr _ => (inr full, looked_up self path w)
       end.
Proof.
  intros Hne. apply eqb_slash_neq in Hne.
  unfold validate_path, lookup_status, lookup_items,
    looked_up. rewrite Hne.
  fold (lookup_request self path). run.
  destruct (serve (backend w) (lookup_request self path)) as [[st body] b'] eqn:Hs.
  simpl. destruct (status_in st [200; 207; 404]); simpl; [|reflexivity].
  destruct (parse_dav_response (NAME self) body "/" false) as [e|l];
    simpl; try reflexivity.
  destruct (is_NotFoundError e); reflexivity.
Qed.

Lemma status_in_lookup (st : Z) :
  status_in st [200; 207; 404] = true <-> st = 200 \/ st = 207 \/ st = 404.
Proof. unfold status_in. simpl. rewrite !orb_true_iff, !Z.eqb_eq. intuition discriminate. Qed.

Lemma validate_v1_path_root (self : NextcloudProvider) (w : world) :
  validate_v1_path self "/" w = (inr (new_WaterButlerPath "/" (prov_folder self)), w).
Proof. reflexivity. Qed.

Lemma validate_path_root (self : NextcloudProvider) (w : world) :
  validate_path self "/" w = (inr (new_WaterButlerPath "/" (prov_folder self)), w).
Proof. reflexivity. Qed.

(** C8: for the path [/] both validations return the root path, which is a
    folder, and the world is left as it was: no request is sent to the
    backend, nothing is opened and the trace is unchanged. *)
Theorem root_is_valid_without_backend_call (self : NextcloudProvider) (w : world) :
  let root := new_WaterButlerPath "/" (prov_folder self) in
  validate_v1_path self "/" w = (inr root, w) /\
  validate_path self "/" w = (inr root, w) /\
  is_folder root = true /\
  _parts root = [mkPart "" None] /\
  trace (snd (validate_v1_path self "/" w)) = trace w /\
  trace (snd (validate_path self "/" w)) = trace w.
Proof. repeat split. Qed.

(** C4: for a provider with a non-empty host, [validate_v1_path] raises
    [NotFoundError] exactly when the path is absent from the backend, or when
    it resolves to an object whose kind is not the one its trailing slash
    asks for. *)
Theorem validate_v1_path_not_found_iff (self : NextcloudProvider) (path : string)
  (w : world) :
  url self <> "" ->
  (exists msg w', validate_v1_path self path w = (inl (NotFoundError msg), w')) <->
  (absent self path w \/
   exists item, resolves_to self path w item /\ hinted_kind path <> m_kind item).
Proof.
  intros _.
  destruct (decide (path = "/")) as [->|Hne].
  { rewrite validate_v1_path_root. split.
    - intros (msg & w' & H). discriminate.
    - intros [[H _]|(item & [H _] & _)]; congruence. }
  rewrite validate_v1_path_cases by assumption. cbv zeta.
  unfold absent, resolves_to.
  set (st := lookup_status self path w).
  destruct (status_in st [200; 207; 404]) eqn:Hin; simpl.
  2:{ assert (~ (st = 200 \/ st = 207 \/ st = 404)) as Hst
        by (rewrite <- status_in_lookup; congruence).
      split.
      - intros (msg & w' & H). discriminate.
      - intros [[_ H]|(item & (_ & H & _) & _)]; exfalso; apply Hst; tauto. }
  destruct (Z.eqb_spec st 404) as [H404|H404].
  { split; [|eauto]. intros _. left. split; [assumption|]. left. assumption. }
  assert (st = 200 \/ st = 207) as Hst
    by (apply status_in_lookup in Hin; tauto).
  destruct (lookup_items self path w) as [e|[|item rest]] eqn:Hit.
  - destruct (is_NotFoundError e) eqn:He.
    + destruct e; try discriminate. split; [|eauto].
      intros _. left. split; [assumption|]. right. eauto.
    + split.
      * intros (msg & w' & H). inversion H; subst. discriminate.
      * intros [[_ [H|[_ [msg H]]]]|(item & (_ & _ & rest & H) & _)];
          try congruence.
        inversion H; subst. discriminate.
  - split.
    + intros (msg & w' & H). discriminate.
    + intros [[_ [H|[_ [msg H]]]]|(item & (_ & _ & rest & H) & _)]; congruence.
  - destruct (kind_eqb (hinted_kind path) (m_kind item)) eqn:Hk.
    + apply kind_eqb_eq in Hk. split.
      * intros (msg & w' & H). discriminate.
      * intros [[_ [H|[_ [msg H]]]]|(item' & (_ & _ & rest' & H) & Hd)];
          try congruence.
    + apply kind_eqb_neq in Hk. split; [|eauto].
      intros _. right. exists item. eauto 8.
Qed.

(** C1, as amended: the two validations return the same path for the
    root and, the host of the provider being non-empty, for every path that
    resolves to an object of the kind its trailing slash asks for.  On an
    absent path [validate_v1_path] raises
    [NotFoundError] where [validate_path] returns the path it built (the
    parser raising nothing but [NotFoundError] on the answer).  They differ
    as well on a path that resolves to an object of the other kind: there
    too [validate_v1_path] raises [NotFoundError] and [validate_path]
    returns the path. *)
Theorem validations_agree_on_matching_kind (self : NextcloudProvider) (path : string)
  (w : world) :
  let full := new_WaterButlerPath path (prov_folder self) in
  (path = "/" ->
   validate_v1_path self path w = (inr full, w) /\
   validate_path self path w = (inr full, w)) /\
  (url self <> "" ->
   forall item, resolves_to self path w item -> hinted_kind path = m_kind item ->
   exists w', validate_v1_path self path w = (inr full, w') /\
              validate_path self path w = (inr full, w')) /\
  (url self <> "" ->
   absent self path w -> parser_quiet self path w ->
   (exists msg w', validate_v1_path self path w = (inl (NotFoundError msg), w')) /\
   exists w', validate_path self path w = (inr full, w')) /\
  (url self <> "" ->
   forall item, resolves_to self path w item -> hinted_kind path <> m_kind item ->
   (exists msg w', validate_v1_path self path w = (inl (NotFoundError msg), w')) /\
   exists w', validate_path self path w = (inr full, w')).
Proof.
  cbv zeta. split; [|split; [|split]].
  - intros ->. split; reflexivity.
  - intros _ item (Hne & Hst & rest & Hit) Hk.
    rewrite validate_v1_path_cases, validate_path_cases by assumption. cbv zeta.
    assert (status_in (lookup_status self path w) [200; 207; 404] = true) as ->
      by (apply status_in_lookup; tauto).
    assert (Z.eqb (lookup_status self path w) 404 = false) as ->
      by (apply Z.eqb_neq; destruct Hst as [-> | ->]; discriminate).
    rewrite Hit. simpl. apply kind_eqb_eq in Hk. rewrite Hk. eauto.
  - intros _ (Hne & Habs) Hq.
    rewrite validate_v1_path_cases, validate_path_cases by assumption. cbv zeta.
    assert (status_in (lookup_status self path w) [200; 207; 404] = true) as ->
      by (apply status_in_lookup; tauto).
    simpl. split.
    + destruct Habs as [-> | (_ & msg & ->)]; simpl; [eauto|].
      destruct (Z.eqb (lookup_status self path w) 404); eauto.
    + destruct (lookup_items self path w) as [e|l] eqn:Hit; [|eauto].
      rewrite (Hq e Hit). eauto.
  - intros _ item (Hne & Hst & rest & Hit) Hk.
    rewrite validate_v1_path_cases, validate_path_cases by assumption. cbv zeta.
    assert (status_in (lookup_status self path w) [200; 207; 404] = true) as ->
      by (apply status_in_lookup; tauto).
    assert (Z.eqb (lookup_status self path w) 404 = false) as ->
      by (apply Z.eqb_neq; destruct Hst as [-> | ->]; discriminate).
    rewrite Hit. simpl. apply kind_eqb_neq in Hk. rewrite Hk. eauto.
Qed.

(** the listing request of [_metadata_folder] *)
Lemma status_in_listing (st : Z) :
  status_in st [204; 207] = true <-> st = 204 \/ st = 207.
Proof. unfold status_in. simpl. rewrite !orb_true_iff, !Z.eqb_eq. intuition discriminate. Qed.

(** C10: for a file path whose listing query comes back empty (204, or a
    207 body that parses to no item) [metadata] raises [IndexError], which is
    none of the errors of the documented taxonomy. *)
Theorem metadata_of_file_with_empty_listing_raises_IndexError
  (self : NextcloudProvider) (path : WaterButlerPath) (w : world) :
  is_dir path = false ->
  let answer :=
    fst (serve (backend w) (plain "PROPFIND" (_webdav_url_ self +:+ full_path path))) in
  fst answer = 204 \/
  (fst answer = 207 /\
   parse_dav_response (NAME self) (snd answer) (prov_folder self) false = inr []) ->
  exists w', metadata_ self path w = (inl IndexError, w').
Proof.
  intros Hfile answer Hempty.
  unfold metadata_, _metadata_file, _metadata_folder.
  rewrite Hfile. run. subst answer.
  destruct (serve (backend w) (plain "PROPFIND" (_webdav_url_ self +:+ full_path path)))
    as [[st body] b']. simpl in Hempty.
  assert (status_in st [204; 207] = true) as -> by (apply status_in_listing; tauto).
  simpl. destruct Hempty as [-> | [-> Hp]]; simpl.
  - eauto.
  - rewrite Hp. simpl. eauto.
Qed.

(** *** Running a coroutine backwards from its result *)

Lemma bind_inr {A C} (m : @M B A) (k : A -> @M B C) (w w' : world) (c : C) :
  bind m k w = (inr c, w') ->
  exists a w1, m w = (inr a, w1) /\ k a w1 = (inr c, w').
Proof.
  unfold bind. destruct (m w) as [[e|a] w1]; intros H; [discriminate|eauto].
Qed.

Lemma bind_run {A C} (m : @M B A) (k : A -> @M B C) (w w1 : world) (a : A) :
  m w = (inr a, w1) -> bind m k w = k a w1.
Proof. unfold bind. intros ->. reflexivity. Qed.

Local Abbreviation handle_name_conflict :=
  (handle_name_conflict serve parse_dav_response parse_checksum_response).
Local Abbreviation upload_destination :=
  (upload_destination serve parse_dav_response parse_checksum_response).
Local Abbreviation upload := (upload serve parse_dav_response parse_checksum_response).
Local Abbreviation _do_dav_move_copy :=
  (_do_dav_move_copy serve parse_dav_response parse_checksum_response).

Lemma upload_destination_plain (self : NextcloudProvider) (path : WaterButlerPath)
  (conflict : string) (w : world) :
  truthy (identifier path) && String.eqb conflict "keep" = false ->
  upload_destination self path conflict w = (inr path, w).
Proof. unfold upload_destination. intros ->. reflexivity. Qed.

(** What the first statement of [upload] does with a path that carries an
    identifier (no path that the provider builds does): under [keep], with
    the name in use among the children of the destination folder, the upload
    goes on to the destination renamed with the counter of
    [handle_name_conflict], the identifier stripped.  A path without
    identifier is uploaded to as it is, whatever the policy. *)
Lemma upload_keep_renames_identified_path (self : NextcloudProvider) (stream : stream)
  (path : WaterButlerPath) (w : world) :
  (forall (w1 : world) (siblings : list metadata),
     truthy (identifier path) = true ->
     _metadata_folder self (parent path) true w = (inr siblings, w1) ->
     in_use (map materialized_path siblings) path = true ->
     let taken := map materialized_path siblings in
     let n := free_counter taken path in
     let dest := clear_identifier (increment_name path n) in
     upload_destination self path "keep" w = (inr dest, w1) /\
     upload self stream path "keep" w = upload self stream dest "replace" w1 /\
     identifier dest = None /\
     name dest = numbered_name (name path) n /\
     (1 <= n)%nat /\
     in_use taken dest = false /\
     (forall k, (1 <= k < n)%nat -> in_use taken (increment_name path k) = true)) /\
  (truthy (identifier path) = false ->
   forall conflict, upload_destination self path conflict w = (inr path, w)).
Proof.
  split.
  - intros w1 siblings Hid Hls Huse taken n dest.
    pose proof (truthy_identifier_parts path Hid) as Hparts.
    assert (upload_destination self path "keep" w = (inr dest, w1)) as Hdest.
    { unfold upload_destination, handle_name_conflict, bind.
      rewrite Hid. change (String.eqb "keep" "keep") with true. cbn [andb]. cbv beta.
      rewrite Hls. cbv beta iota zeta. rewrite Huse. reflexivity. }
    assert (identifier dest = None) as Hnone by apply identifier_clear_identifier.
    split; [assumption|]. split; [|split; [|split; [|split; [|split]]]].
    + assert (upload_destination self dest "replace" w1 = (inr dest, w1)) as Hplain
        by (apply upload_destination_plain; rewrite Hnone; reflexivity).
      unfold upload.
      rewrite (bind_run _ _ _ _ _ Hdest), (bind_run _ _ _ _ _ Hplain). reflexivity.
    + assumption.
    + unfold dest. rewrite name_clear_identifier. apply name_increment_name. assumption.
    + apply free_counter_positive.
    + unfold dest. rewrite in_use_clear_identifier. apply free_counter_free. assumption.
    + intros k Hk. apply free_counter_least. assumption.
  - intros Hid conflict. apply upload_destination_plain. rewrite Hid. reflexivity.
Qed.

Lemma ret_inr {A} (a a' : A) (w w' : @world B) :
  ret a w = (inr a', w') -> a = a' /\ w = w'.
Proof. unfold ret. intros H. injection H as -> ->. split; reflexivity. Qed.

Lemma make_request_inr (req : request) (expects : list Z) (throws : Z -> exn)
  (w w' : world) (resp : response) :
  make_request serve req expects throws w = (inr resp, w') ->
  status resp = fst (fst (serve (backend w) req)) /\
  content resp = snd (fst (serve (backend w) req)) /\
  status_in (status resp) expects = true /\
  backend w' = snd (serve (backend w) req).
Proof.
  unfold make_request. destruct (serve (backend w) req) as [[st body] b'].
  destruct (status_in st expects) eqn:Hin; intros H; [|discriminate].
  injection H as <- <-. simpl. auto.
Qed.

Lemma upload_destination_is_dir (self : NextcloudProvider) (path dest : WaterButlerPath)
  (conflict : string) (w w1 : world) :
  upload_destination self path conflict w = (inr dest, w1) ->
  is_dir dest = is_dir path.
Proof.
  unfold upload_destination.
  destruct (truthy (identifier path) && String.eqb conflict "keep").
  - intros H. apply bind_inr in H as (r & w2 & Hr & H).
    apply ret_inr in H as [<- _].
    unfold handle_name_conflict in Hr.
    apply bind_inr in Hr as (siblings & w3 & _ & Hr). cbv zeta in Hr.
    destruct (negb (in_use (map materialized_path siblings) path)
              || String.eqb conflict "replace").
    + apply ret_inr in Hr as [<- _]. reflexivity.
    + destruct (String.eqb conflict "warn"); [discriminate|].
      apply ret_inr in Hr as [<- _]. reflexivity.
  - intros H. apply ret_inr in H as [<- _]. reflexivity.
Qed.

Lemma metadata_of_file (self : NextcloudProvider) (path : WaterButlerPath)
  (w w' : world) (meta : meta_result) :
  is_dir path = false -> metadata_ self path w = (inr meta, w') ->
  exists m, meta = MetaOne m.
Proof.
  unfold metadata_. intros -> H.
  apply bind_inr in H as (m & w1 & _ & H). apply ret_inr in H as [<- _]. eauto.
Qed.

Lemma metadata_of_folder (self : NextcloudProvider) (path : WaterButlerPath)
  (w w' : world) (meta : meta_result) :
  is_dir path = true -> metadata_ self path w = (inr meta, w') ->
  exists l, meta = MetaList l /\ _metadata_folder self path true w = (inr l, w').
Proof.
  unfold metadata_. intros -> H.
  apply bind_inr in H as (l & w1 & Hl & H). apply ret_inr in H as [<- <-]. eauto.
Qed.

Lemma last_part_of_new_path (l : list string) (d : WaterButlerPathPart) :
  _id d = None -> _id (List.last (map (fun v => mkPart v None) l) d) = None.
Proof.
  intros Hd. induction l as [|x l IH]; [exact Hd|].
  destruct l as [|y l]; [reflexivity|]. exact IH.
Qed.

(** no path that the provider builds from a string carries an identifier *)
Lemma identifier_of_new_path (path prepend : string) :
  identifier (new_WaterButlerPath path prepend) = None.
Proof. unfold identifier, last_part. simpl. apply last_part_of_new_path. reflexivity. Qed.

(** C5, where the code departs from it: the renaming of [upload] is guarded
    by the identifier of the path, and no path that the provider builds from
    a string carries one.  For every such path the destination is the path
    itself whatever the policy, an upload under [keep] runs exactly as one
    under [replace], and where the server answers 204 to the [PUT] (it
    replaced what it held) the upload under [keep] reports an overwrite. *)
Theorem upload_under_keep_never_renames_a_built_path (self : NextcloudProvider)
  (stream : stream) (path prepend : string) (w : world) :
  let p := new_WaterButlerPath path prepend in
  truthy (identifier p) = false /\
  (forall conflict, upload_destination self p conflict w = (inr p, w)) /\
  upload self stream p "keep" w = upload self stream p "replace" w /\
  (forall meta created w',
     upload self stream p "keep" w = (inr (meta, created), w') ->
     fst (fst (serve (backend w) (put_request self stream p))) = 204 ->
     created = false).
Proof.
  cbv zeta. set (p := new_WaterButlerPath path prepend).
  assert (truthy (identifier p) = false) as Hid
    by (unfold p; rewrite identifier_of_new_path; reflexivity).
  assert (forall conflict, upload_destination self p conflict w = (inr p, w)) as Hdest
    by (intros conflict; apply upload_destination_plain; rewrite Hid; reflexivity).
  split; [assumption|]. split; [assumption|]. split.
  - unfold upload. rewrite !(bind_run _ _ _ _ _ (Hdest _)). reflexivity.
  - intros meta created w' H Hst. unfold upload in H.
    rewrite (bind_run _ _ _ _ _ (Hdest "keep")) in H.
    apply bind_inr in H as (resp & w1 & Hreq & H).
    apply bind_inr in H as ([] & w2 & _ & H).
    apply bind_inr in H as (meta' & w3 & _ & H).
    apply ret_inr in H as [H _]. injection H as _ <-.
    destruct (make_request_inr _ _ _ _ _ _ Hreq) as (Hs & _).
    rewrite Hs, Hst. reflexivity.
Qed.

Section PutConvention.

(** what the server holds, and its answers to [PUT]: 201 Created where it
    held nothing at the URL, 204 No Content where it replaced what it held *)
Variable holds : B -> string -> bool.
Hypothesis put_convention : forall (b : B) (req : request),
  method req = "PUT" ->
  (fst (fst (serve b req)) = 201 -> holds b (req_url req) = false) /\
  (fst (fst (serve b req)) = 204 -> holds b (req_url req) = true).

(** C6: a successful upload returns the metadata that the backend gives for
    the destination after the write, a single file object for a file path,
    together with a flag that is true exactly when the backend held nothing
    at the destination before the write (the object is new) and false
    exactly when it held something (the object is overwritten). *)
Theorem upload_returns_metadata_and_created_flag (self : NextcloudProvider)
  (stream : stream) (path : WaterButlerPath) (conflict : string) (w w' : world)
  (meta : meta_result) (created : bool) :
  upload self stream path conflict w = (inr (meta, created), w') ->
  exists dest w1 resp w2 w3,
    upload_destination self path conflict w = (inr dest, w1) /\
    is_dir dest = is_dir path /\
    make_request serve (put_request self stream dest) [201; 204] UploadError w1
      = (inr resp, w2) /\
    release resp w2 = (inr tt, w3) /\
    metadata_ self dest w3 = (inr meta, w') /\
    (is_dir path = false -> exists m, meta = MetaOne m) /\
    (created = true <-> holds (backend w1) (_webdav_url_ self +:+ full_path dest) = false) /\
    (created = false <-> holds (backend w1) (_webdav_url_ self +:+ full_path dest) = true).
Proof.
  intros H. unfold upload in H.
  apply bind_inr in H as (dest & w1 & Hdest & H).
  apply bind_inr in H as (resp & w2 & Hreq & H).
  apply bind_inr in H as ([] & w3 & Hrel & H).
  apply bind_inr in H as (meta' & w4 & Hmeta & H).
  apply ret_inr in H as [H <-]. injection H as -> <-.
  pose proof (upload_destination_is_dir _ _ _ _ _ _ Hdest) as Hdir.
  exists dest, w1, resp, w2, w3.
  repeat (split; [assumption|]).
  split.
  { intros Hfile. eapply metadata_of_file; [|eassumption]. congruence. }
  destruct (make_request_inr _ _ _ _ _ _ Hreq) as (Hst & _ & Hin & _).
  destruct (put_convention (backend w1) (put_request self stream dest) eq_refl)
    as [H201 H204].
  rewrite <- Hst in H201, H204. simpl in H201, H204.
  unfold status_in in Hin. simpl in Hin. rewrite !orb_true_iff, !Z.eqb_eq in Hin.
  destruct Hin as [E|[E|E]]; [| |discriminate]; rewrite E; simpl.
  - rewrite (H201 E). split; split; congruence.
  - rewrite (H204 E). split; split; congruence.
Qed.

End PutConvention.

(** C7: after a successful intra copy or move to a folder, the metadata
    returned is the first entry of the listing of the destination's parent,
    fetched again after the transfer, whose materialized path is that of the
    destination, with the listing of the destination as its children.  The
    entry is picked by the materialized path alone: giving the entries other
    backend identifiers picks the same entry. *)
Theorem intra_transfer_to_folder_returns_child_by_materialized_path
  (self : NextcloudProvider) (src_path dest_path : WaterButlerPath) (operation : string)
  (w w' : world) (meta : meta_result) (created : bool) :
  _do_dav_move_copy self src_path dest_path operation w = (inr (meta, created), w') ->
  is_folder dest_path = true ->
  exists w1 w2 file_meta parent_meta m rest,
    _metadata_folder self dest_path true w1 = (inr file_meta, w2) /\
    _metadata_folder self (parent dest_path) true w2 = (inr parent_meta, w') /\
    select_child materialized_path (path_materialized_path dest_path) parent_meta
      = m :: rest /\
    In m parent_meta /\
    materialized_path m = path_materialized_path dest_path /\
    meta = MetaOne (set_children m file_meta) /\
    forall g : string -> string,
      select_child materialized_path (path_materialized_path dest_path)
                   (map (with_fileid g) parent_meta)
      = with_fileid g m :: map (with_fileid g) rest.
Proof.
  intros H Hfolder. unfold _do_dav_move_copy in H.
  destruct (negb (String.eqb operation "MOVE") && negb (String.eqb operation "COPY"));
    [discriminate|].
  apply bind_inr in H as (resp & w0 & Hreq & H).
  apply bind_inr in H as ([] & w1 & Hrel & H).
  apply bind_inr in H as (file_meta & w2 & Hfm & H).
  apply bind_inr in H as (meta' & w3 & Hsel & H).
  apply ret_inr in H as [H <-]. injection H as -> <-.
  rewrite Hfolder in Hsel.
  apply bind_inr in Hsel as (parent_meta & w4 & Hpm & Hsel).
  apply bind_inr in Hsel as (l & w5 & Hit & Hsel).
  apply bind_inr in Hsel as (m & w6 & Hfirst & Hsel).
  apply ret_inr in Hsel as [<- <-].
  apply metadata_of_folder in Hfm as (fl & -> & Hfm); [|exact Hfolder].
  apply metadata_of_folder in Hpm as (pl & -> & Hpm); [|reflexivity].
  apply ret_inr in Hit as [<- <-].
  destruct (select_child materialized_path (path_materialized_path dest_path) pl)
    as [|m0 rest] eqn:Hsc; [discriminate|].
  apply ret_inr in Hfirst as [<- <-].
  assert (In m0 (select_child materialized_path (path_materialized_path dest_path) pl))
    as Hin by (rewrite Hsc; left; reflexivity).
  apply filter_In in Hin as [Hin Heq]. apply String.eqb_eq in Heq.
  exists w1, w2, fl, pl, m0, rest. repeat (split; [assumption || reflexivity|]).
  intros g. rewrite select_child_with_fileid, Hsc. reflexivity.
Qed.

(** *** Releasing responses *)

(** C2: the listing query of [_metadata_folder] parses the body before it
    releases the response.  When the server answers 207 and the parser raises
    on the body, the error leaves [_metadata_folder], and with it [metadata],
    while the response is still open: it is among the open responses of the
    final world and the trace holds no release. *)
Theorem metadata_leaves_response_open_when_parser_raises (self : NextcloudProvider)
  (path : WaterButlerPath) (w : world) (e : exn) :
  let req := plain "PROPFIND" (_webdav_url_ self +:+ full_path path) in
  let skip_first := is_dir path in
  fst (fst (serve (backend w) req)) = 207 ->
  parse_dav_response (NAME self) (snd (fst (serve (backend w) req)))
                     (prov_folder self) skip_first = inl e ->
  exists w',
    metadata_ self path w = (inl e, w') /\
    opened w' = next_handle w :: opened w /\
    trace w' = (trace w ++ [Sent req])%list.
Proof.
  intros req skip_first Hst Hparse. subst req skip_first.
  unfold metadata_, _metadata_file, _metadata_folder.
  destruct (is_dir path); run;
    destruct (serve (backend w) (plain "PROPFIND" (_webdav_url_ self +:+ full_path path)))
      as [[st body] b']; simpl in Hst, Hparse; subst st;
    change (status_in 207 [204; 207]) with true; simpl; rewrite Hparse; simpl; eauto.
Qed.

(** *** Every opened response is released, unless a parser raises first *)

Local Abbreviation parser_raises :=
  (parser_raises parse_dav_response parse_checksum_response).

Lemma settled_later (leaky : exn -> Prop) {A} (o : list nat) (w w1 : @world B)
  (r : (exn + A) * world) :
  (next_handle w <= next_handle w1)%nat -> settled leaky o w1 r -> settled leaky o w r.
Proof. unfold settled. intros Hle (Hf & Hn & Ho). repeat split; [assumption|lia|assumption]. Qed.

Lemma filter_absent (h : nat) (o : list nat) :
  ~ In h o -> List.filter (fun h' => negb (Nat.eqb h' h)) o = o.
Proof.
  induction o as [|x o IH]; intros Hnin; [reflexivity|]. simpl.
  destruct (Nat.eqb_spec x h) as [->|Hne]; simpl.
  - exfalso. apply Hnin. left. reflexivity.
  - f_equal. apply IH. intros Hin. apply Hnin. right. assumption.
Qed.

Lemma pure_ret {A} (a : A) : pure_step (@ret B A a).
Proof. intros w. reflexivity. Qed.

Lemma pure_raise {A} (e : exn) : pure_step (@raise B A e).
Proof. intros w. reflexivity. Qed.

Lemma pure_lift {A} (r : exn + A) : pure_step (@lift B A r).
Proof. intros w. reflexivity. Qed.

Lemma pure_first {A} (l : list A) : pure_step (@first B A l).
Proof. intros w. destruct l; reflexivity. Qed.

Lemma pure_iterate (r : meta_result) : pure_step (@iterate B r).
Proof. intros w. destruct r; reflexivity. Qed.

Lemma pure_bind {A C} (m : @M B A) (k : A -> @M B C) :
  pure_step m -> (forall a, pure_step (k a)) -> pure_step (bind m k).
Proof.
  intros Hm Hk w. unfold bind. specialize (Hm w).
  destruct (m w) as [[e|a] w1]; simpl in Hm; subst w1; [reflexivity|apply Hk].
Qed.

Lemma pure_except {A} (m h : @M B A) :
  pure_step m -> pure_step h -> pure_step (except_NotFoundError m h).
Proof.
  intros Hm Hh w. unfold except_NotFoundError. specialize (Hm w).
  destruct (m w) as [[e|a] w1]; simpl in Hm; subst w1; [|reflexivity].
  destruct (is_NotFoundError e); [apply Hh|reflexivity].
Qed.

Lemma raises_only_ret (leaky : exn -> Prop) {A} (a : A) : raises_only leaky (@ret B A a).
Proof. intros w e H. discriminate. Qed.

Lemma raises_only_bind (leaky : exn -> Prop) {A C} (m : @M B A) (k : A -> @M B C) :
  raises_only leaky m -> (forall a, raises_only leaky (k a)) ->
  raises_only leaky (bind m k).
Proof.
  intros Hm Hk w e. unfold bind. specialize (Hm w).
  destruct (m w) as [[e'|a] w1]; simpl in *.
  - intros [= <-]. apply Hm. reflexivity.
  - apply Hk.
Qed.

Lemma raises_only_parse_dav (provider : string) (c : Content) (fld : string) (skip : bool) :
  raises_only parser_raises (@lift B _ (parse_dav_response provider c fld skip)).
Proof. intros w e H. simpl in H. left. eauto 6. Qed.

Lemma raises_only_parse_checksum (c : Content) :
  raises_only parser_raises (@lift B _ (parse_checksum_response c)).
Proof. intros w e H. simpl in H. right. eauto. Qed.

Lemma pure_balanced (leaky : exn -> Prop) {A} (m : @M B A) :
  pure_step m -> balanced leaky m.
Proof.
  intros Hp w Hw. unfold settled. rewrite Hp. repeat split; [assumption|lia|auto].
Qed.

Lemma balanced_bind (leaky : exn -> Prop) {A C} (m : @M B A) (k : A -> @M B C) :
  balanced leaky m -> (forall a, balanced leaky (k a)) -> balanced leaky (bind m k).
Proof.
  intros Hm Hk w Hw. unfold bind. specialize (Hm w Hw).
  destruct (m w) as [[e|a] w1].
  { destruct Hm as (Hf & Hn & [Ho|(e' & He & Hl)]); repeat split; auto.
    right. exists e'. simpl in *. split; [congruence|assumption]. }
  destruct Hm as (Hf & Hn & [Ho|(e & He & _)]); [|discriminate]. simpl in *.
  rewrite <- Ho. eapply settled_later; [eassumption|]. apply Hk. assumption.
Qed.

Lemma closes_bind_pure (leaky : exn -> Prop) {A C} (r : @response Content)
  (m : @M B A) (k : A -> @M B C) :
  pure_step m -> raises_only leaky m -> (forall a, closes leaky r (k a)) ->
  closes leaky r (bind m k).
Proof.
  intros Hp Hr Hk w o Ho Hw Hnin. unfold bind.
  specialize (Hp w). specialize (Hr w).
  destruct (m w) as [[e|a] w1]; simpl in *; subst w1.
  - unfold settled. simpl. repeat split; [assumption|lia|]. right. eauto.
  - apply Hk; assumption.
Qed.

Lemma closes_release (leaky : exn -> Prop) {C} (r : @response Content) (k : @M B C) :
  balanced leaky k -> closes leaky r (bind (release r) (fun _ => k)).
Proof.
  intros Hk w o Ho Hw Hnin. unfold bind, release.
  set (w1 := mkWorld _ _ _ _).
  assert (opened w1 = o) as Ho1.
  { unfold w1. simpl. rewrite Ho. simpl. rewrite Nat.eqb_refl. simpl.
    apply filter_absent. assumption. }
  assert (handles_fresh w1) as Hw1.
  { unfold handles_fresh. rewrite Ho1. unfold handles_fresh in Hw. rewrite Ho in Hw.
    apply Forall_inv_tail in Hw. exact Hw. }
  rewrite <- Ho1. apply (settled_later leaky _ w w1); [simpl; lia|].
  apply Hk. assumption.
Qed.

Lemma balanced_request (leaky : exn -> Prop) {C} (req : request) (expects : list Z)
  (throws : Z -> exn) (k : response -> @M B C) :
  (forall r, closes leaky r (k r)) ->
  balanced leaky (bind (make_request serve req expects throws) k).
Proof.
  intros Hk w Hw. unfold bind, make_request.
  destruct (serve (backend w) req) as [[st body] b'].
  destruct (status_in st expects).
  - set (w1 := mkWorld _ _ _ _).
    apply (settled_later leaky _ w w1); [simpl; lia|].
    apply (Hk (mkResponse (next_handle w) st body) w1 (opened w)).
    + reflexivity.
    + unfold handles_fresh, w1. simpl. constructor; [lia|].
      eapply Forall_impl; [exact Hw|]. simpl. intros; lia.
    + simpl. intros Hin. unfold handles_fresh in Hw.
      rewrite Forall_forall in Hw. apply list_elem_of_In in Hin.
      specialize (Hw _ Hin). simpl in Hw. lia.
  - repeat split; simpl; [|lia|auto].
    unfold handles_fresh. simpl. eapply Forall_impl; [exact Hw|]. simpl. intros; lia.
Qed.

Lemma balanced_mapM (leaky : exn -> Prop) {A C} (f : A -> @M B C) (l : list A) :
  (forall x, balanced leaky (f x)) -> balanced leaky (mapM f l).
Proof.
  intros Hf. induction l as [|x l IH]; simpl.
  - apply pure_balanced, pure_ret.
  - apply balanced_bind; [apply Hf|]. intros y.
    apply balanced_bind; [apply IH|]. intros ys. apply pure_balanced, pure_ret.
Qed.

Ltac pure_steps :=
  cbv zeta;
  repeat first
    [ apply pure_ret | apply pure_raise | apply pure_lift | apply pure_first
    | apply pure_iterate
    | apply pure_except
    | apply pure_bind; [|intros ?]
    | match goal with |- pure_step (if ?c then _ else _) => destruct c end ].

Ltac parser_steps :=
  repeat first
    [ apply raises_only_ret | apply raises_only_parse_dav
    | apply raises_only_parse_checksum
    | apply raises_only_bind; [|intros ?]
    | match goal with |- raises_only _ (if ?c then _ else _) => destruct c end ].

Local Abbreviation add_checksum := (add_checksum serve parse_checksum_response).
Local Abbreviation revision_checksum := (revision_checksum serve parse_checksum_response).
Local Abbreviation _metadata_revision :=
  (_metadata_revision serve parse_dav_response parse_checksum_response).
Local Abbreviation revisions := (revisions serve parse_dav_response parse_checksum_response).
Local Abbreviation delete_ := (delete_ serve).
Local Abbreviation create_folder :=
  (create_folder serve parse_dav_response parse_checksum_response).
Local Abbreviation intra_copy := (intra_copy serve parse_dav_response parse_checksum_response).
Local Abbreviation intra_move := (intra_move serve parse_dav_response parse_checksum_response).

Lemma validate_v1_path_balanced (self : NextcloudProvider) (path : string) :
  balanced never (validate_v1_path self path).
Proof.
  unfold validate_v1_path. destruct (String.eqb path "/").
  - apply pure_balanced, pure_ret.
  - cbv zeta. apply balanced_request. intros r. apply closes_release.
    apply pure_balanced. pure_steps.
Qed.

Lemma validate_path_balanced (self : NextcloudProvider) (path : string) :
  balanced never (validate_path self path).
Proof.
  unfold validate_path. destruct (String.eqb path "/").
  - apply pure_balanced, pure_ret.
  - cbv zeta. apply balanced_request. intros r. apply closes_release.
    apply pure_balanced. pure_steps.
Qed.

Lemma delete_balanced (self : NextcloudProvider) (path : WaterButlerPath) :
  balanced never (delete_ self path).
Proof.
  unfold delete_. apply balanced_request. intros r. apply closes_release.
  apply pure_balanced, pure_ret.
Qed.

Lemma add_checksum_balanced (self : NextcloudProvider) (i : metadata) :
  balanced parser_raises (add_checksum self i).
Proof.
  unfold add_checksum.
  destruct (is_file i && String.eqb (NAME self) "nextcloudinstitutions").
  - apply balanced_request. intros r.
    apply closes_bind_pure; [pure_steps|parser_steps|]. intros i'.
    apply closes_release. apply pure_balanced, pure_ret.
  - apply pure_balanced, pure_ret.
Qed.

Lemma _metadata_folder_balanced (self : NextcloudProvider) (path : WaterButlerPath)
  (skip_first : bool) :
  balanced parser_raises (_metadata_folder self path skip_first).
Proof.
  unfold _metadata_folder. apply balanced_request. intros r.
  apply closes_bind_pure; [pure_steps|parser_steps|]. intros items.
  apply closes_release. apply balanced_mapM. apply add_checksum_balanced.
Qed.

Lemma metadata_balanced (self : NextcloudProvider) (path : WaterButlerPath) :
  balanced parser_raises (metadata_ self path).
Proof.
  unfold metadata_, _metadata_file. destruct (is_dir path).
  - apply balanced_bind; [apply _metadata_folder_balanced|]. intros l.
    apply pure_balanced, pure_ret.
  - apply balanced_bind.
    + apply balanced_bind; [apply _metadata_folder_balanced|]. intros l.
      apply pure_balanced, pure_first.
    + intros m. apply pure_balanced, pure_ret.
Qed.

Lemma handle_name_conflict_balanced (self : NextcloudProvider) (path : WaterButlerPath)
  (conflict : string) :
  balanced parser_raises (handle_name_conflict self path conflict).
Proof.
  unfold handle_name_conflict.
  apply balanced_bind; [apply _metadata_folder_balanced|]. intros siblings.
  apply pure_balanced. pure_steps.
Qed.

Lemma upload_balanced (self : NextcloudProvider) (stream : stream)
  (path : WaterButlerPath) (conflict : string) :
  balanced parser_raises (upload self stream path conflict).
Proof.
  unfold upload, upload_destination. apply balanced_bind.
  - destruct (truthy (identifier path) && String.eqb conflict "keep").
    + apply balanced_bind; [apply handle_name_conflict_balanced|]. intros r.
      apply pure_balanced, pure_ret.
    + apply pure_balanced, pure_ret.
  - intros dest. apply balanced_request. intros r. apply closes_release.
    apply balanced_bind; [apply metadata_balanced|]. intros meta.
    apply pure_balanced, pure_ret.
Qed.

Lemma create_folder_balanced (self : NextcloudProvider) (path : WaterButlerPath) :
  balanced parser_raises (create_folder self path).
Proof.
  unfold create_folder. apply balanced_request. intros r. apply closes_release.
  destruct (Z.eqb (status r) 405).
  - apply pure_balanced, pure_raise.
  - apply balanced_bind; [apply metadata_balanced|]. intros meta.
    apply pure_balanced. pure_steps.
Qed.

Lemma _do_dav_move_copy_balanced (self : NextcloudProvider)
  (src_path dest_path : WaterButlerPath) (operation : string) :
  balanced parser_raises (_do_dav_move_copy self src_path dest_path operation).
Proof.
  unfold _do_dav_move_copy.
  destruct (negb (String.eqb operation "MOVE") && negb (String.eqb operation "COPY")).
  - apply pure_balanced, pure_raise.
  - apply balanced_request. intros r. apply closes_release.
    apply balanced_bind; [apply metadata_balanced|]. intros file_meta.
    apply balanced_bind; [|intros meta; apply pure_balanced, pure_ret].
    destruct (is_folder dest_path).
    + apply balanced_bind; [apply metadata_balanced|]. intros parent_meta.
      apply pure_balanced. pure_steps.
    + apply pure_balanced, pure_ret.
Qed.

Lemma revision_checksum_balanced (self : NextcloudProvider) (path : WaterButlerPath)
  (revision : option string) (m : metadata) :
  balanced parser_raises (revision_checksum self path revision m).
Proof.
  unfold revision_checksum. apply balanced_request. intros r.
  apply closes_bind_pure; [pure_steps|parser_steps|]. intros m'.
  apply closes_release. apply pure_balanced, pure_ret.
Qed.

Lemma _metadata_revision_balanced (self : NextcloudProvider) (path : WaterButlerPath) :
  balanced parser_raises (_metadata_revision self path).
Proof.
  unfold _metadata_revision. apply balanced_request. intros r.
  apply closes_bind_pure; [pure_steps|parser_steps|]. intros items.
  apply closes_release.
  destruct items as [|item [|item' items]]; try (apply pure_balanced, pure_ret).
  apply balanced_bind.
  { destruct (String.eqb (NAME self) "nextcloudinstitutions");
      [apply revision_checksum_balanced|apply pure_balanced, pure_ret]. }
  intros item1. cbv zeta.
  apply balanced_bind; [apply pure_balanced, pure_lift|]. intros username.
  apply balanced_request. intros r'.
  apply closes_bind_pure; [pure_steps|parser_steps|]. intros revision_items.
  apply closes_release.
  apply balanced_bind; [|intros l; apply pure_balanced, pure_ret].
  destruct (String.eqb (NAME self) "nextcloudinstitutions");
    [|apply pure_balanced, pure_ret].
  apply balanced_mapM. intros rev. apply revision_checksum_balanced.
Qed.

Lemma revisions_balanced (self : NextcloudProvider) (path : WaterButlerPath) :
  balanced parser_raises (revisions self path).
Proof.
  unfold revisions. apply balanced_bind; [apply _metadata_revision_balanced|].
  intros l. apply pure_balanced, pure_ret.
Qed.

(** Every operation of the provider that opens responses releases each of
    them on every exit path, success or error, with one exception: an error
    of a body parser raised in [_metadata_folder] or [_metadata_revision],
    which parse before they release.  The validations and [delete] have no
    such exit. *)
Theorem responses_released_unless_parser_raises (self : NextcloudProvider) :
  (forall path, balanced never (validate_v1_path self path)) /\
  (forall path, balanced never (validate_path self path)) /\
  (forall path, balanced never (delete_ self path)) /\
  (forall path, balanced parser_raises (metadata_ self path)) /\
  (forall stream path conflict, balanced parser_raises (upload self stream path conflict)) /\
  (forall path, balanced parser_raises (create_folder self path)) /\
  (forall dest src_path dest_path,
     balanced parser_raises (intra_copy self dest src_path dest_path) /\
     balanced parser_raises (intra_move self dest src_path dest_path)) /\
  (forall path, balanced parser_raises (revisions self path)).
Proof.
  repeat match goal with |- _ /\ _ => split end; intros;
    repeat match goal with |- _ /\ _ => split end;
    first [ apply validate_v1_path_balanced | apply validate_path_balanced
          | apply delete_balanced | apply metadata_balanced | apply upload_balanced
          | apply create_folder_balanced | apply _do_dav_move_copy_balanced
          | apply revisions_balanced ].
Qed.

(** ** Further properties of the provider *)

(** *** The outcomes of [validate_path] *)

(** [validate_path] never raises [NotFoundError]; when it returns, it returns
    the path built from the string under the folder of the provider.  When
    the server answers something else than 200, 207 or 404 to a provider with
    a non-empty host, both validations raise [MetadataError] with that
    status, without calling the parser. *)
Theorem validate_path_never_raises_NotFoundError (self : NextcloudProvider)
  (path : string) (w : world) :
  (forall msg w', validate_path self path w <> (inl (NotFoundError msg), w')) /\
  (forall p w', validate_path self path w = (inr p, w') ->
                p = new_WaterButlerPath path (prov_folder self)) /\
  (url self <> "" -> path <> "/" ->
   status_in (lookup_status self path w) [200; 207; 404] = false ->
   exists w', validate_path self path w = (inl (MetadataError (lookup_status self path w)), w')
              /\ validate_v1_path self path w = validate_path self path w
              /\ opened w' = opened w).
Proof.
  destruct (decide (path = "/")) as [->|Hne].
  { rewrite validate_path_root. split; [congruence|]. split; [|congruence].
    intros p w' H. injection H as <- _. reflexivity. }
  rewrite validate_v1_path_cases, validate_path_cases by assumption. cbv zeta.
  destruct (status_in (lookup_status self path w) [200; 207; 404]) eqn:Hin; simpl.
  - split; [|split; [|discriminate]].
    + intros msg w' H.
      destruct (lookup_items self path w) as [e|l]; [|discriminate].
      destruct (is_NotFoundError e) eqn:He; [discriminate|].
      injection H as -> _. discriminate.
    + intros p w' H.
      destruct (lookup_items self path w) as [e|l].
      * destruct (is_NotFoundError e); [|discriminate]. injection H as <- _. reflexivity.
      * injection H as <- _. reflexivity.
  - split; [congruence|]. split; [congruence|]. intros _ _ _.
    eexists. split; [reflexivity|]. split; reflexivity.
Qed.

(** *** [delete] and [create_folder] *)

(** For a provider with a non-empty host, [delete] succeeds exactly when
    the server answers 204 to the one [DELETE] request it sends, and it
    releases the response, which it does not read; any other status is
    raised as [DeleteError] with that status.  On both exits the open
    responses are those it found. *)
Theorem delete_succeeds_exactly_on_204 (self : NextcloudProvider)
  (path : WaterButlerPath) (w : world) :
  url self <> "" ->
  handles_fresh w ->
  let req := plain "DELETE" (_webdav_url_ self +:+ full_path path) in
  let st := fst (fst (serve (backend w) req)) in
  (st = 204 ->
   exists w', delete_ self path w = (inr tt, w') /\
              trace w' = (trace w ++ [Sent req; Released (next_handle w)])%list /\
              opened w' = opened w) /\
  (st <> 204 ->
   exists w', delete_ self path w = (inl (DeleteError st), w') /\
              trace w' = (trace w ++ [Sent req])%list /\
              opened w' = opened w).
Proof.
  intros _ Hw. cbv zeta. unfold delete_. run.
  destruct (serve (backend w) (plain "DELETE" (_webdav_url_ self +:+ full_path path)))
    as [[st body] b']. simpl. unfold status_in. simpl. split.
  - intros ->. simpl. eexists. split; [reflexivity|]. simpl.
    rewrite <- app_assoc. split; [reflexivity|].
    rewrite Nat.eqb_refl. simpl. apply filter_absent.
    intros Hin. unfold handles_fresh in Hw. rewrite Forall_forall in Hw.
    apply list_elem_of_In in Hin. specialize (Hw _ Hin). simpl in Hw. lia.
  - intros Hne. apply Z.eqb_neq in Hne. rewrite Hne. simpl. eauto.
Qed.

(** For a provider with a non-empty host, [create_folder] raises
    [FolderNamingConflict] with the name of the folder when the server
    answers 405 to [MKCOL], without listing the parent; a status other than
    201 and 405 is raised as [CreateFolderError]. *)
Theorem create_folder_conflict_on_405 (self : NextcloudProvider)
  (path : WaterButlerPath) (w : world) :
  url self <> "" ->
  let req := plain "MKCOL" (_webdav_url_ self +:+ full_path path) in
  let st := fst (fst (serve (backend w) req)) in
  (st = 405 ->
   exists w', create_folder self path w = (inl (FolderNamingConflict (name path)), w') /\
              trace w' = (trace w ++ [Sent req; Released (next_handle w)])%list) /\
  (st <> 201 -> st <> 405 ->
   exists w', create_folder self path w = (inl (CreateFolderError st), w') /\
              trace w' = (trace w ++ [Sent req])%list).
Proof.
  intros _. cbv zeta. unfold create_folder. run.
  destruct (serve (backend w) (plain "MKCOL" (_webdav_url_ self +:+ full_path path)))
    as [[st body] b']. simpl. unfold status_in. simpl. split.
  - intros ->. simpl. eexists. split; [reflexivity|]. simpl.
    rewrite <- app_assoc. reflexivity.
  - intros H201 H405. apply Z.eqb_neq in H201, H405. rewrite H201, H405. simpl. eauto.
Qed.

(** When [create_folder] returns, the server answered 201 to [MKCOL], and
    the metadata returned is an entry of the listing of the parent, fetched
    after the creation, whose path is the materialized path of the new
    folder. *)
Theorem create_folder_returns_entry_of_parent (self : NextcloudProvider)
  (path : WaterButlerPath) (w w' : world) (m : metadata) :
  create_folder self path w = (inr m, w') ->
  fst (fst (serve (backend w) (plain "MKCOL" (_webdav_url_ self +:+ full_path path))))
  = 201 /\
  exists w1 l,
    _metadata_folder self (parent path) true w1 = (inr l, w') /\
    In m l /\
    m_path m = path_materialized_path path.
Proof.
  intros H. unfold create_folder in H.
  apply bind_inr in H as (resp & w0 & Hreq & H).
  apply bind_inr in H as ([] & w1 & Hrel & H).
  destruct (make_request_inr _ _ _ _ _ _ Hreq) as (Hst & _ & Hin & _).
  destruct (Z.eqb_spec (status resp) 405) as [E|E]; [discriminate|].
  split.
  { rewrite <- Hst. unfold status_in in Hin. simpl in Hin.
    rewrite !orb_true_iff, !Z.eqb_eq in Hin. destruct Hin as [?|[?|?]]; congruence. }
  apply bind_inr in H as (meta & w2 & Hmeta & H).
  apply bind_inr in H as (l & w3 & Hit & H).
  apply metadata_of_folder in Hmeta as (l' & -> & Hmeta); [|reflexivity].
  apply ret_inr in Hit as [<- <-].
  destruct (select_child m_path (path_materialized_path path) l') as [|m0 rest] eqn:Hsc;
    [discriminate|].
  apply ret_inr in H as [<- <-].
  assert (In m0 (select_child m_path (path_materialized_path path) l')) as Hm
    by (rewrite Hsc; left; reflexivity).
  apply filter_In in Hm as [Hm Heq]. apply String.eqb_eq in Heq.
  exists w1, l'. auto.
Qed.

(** *** Transfers *)

(** An operation other than [MOVE] and [COPY] is refused with
    [NotImplementedError] before any request is sent.  For a provider with a
    non-empty host, a [MOVE] or [COPY] that the server answers with a status
    other than 201 and 204 raises [IntraCopyError] with that status, for a
    move as for a copy, and no metadata is queried. *)
Theorem failed_transfer_raises_IntraCopyError (self : NextcloudProvider)
  (src_path dest_path : WaterButlerPath) (operation : string) (w : world) :
  let req := mkRequest operation (_webdav_url_ self +:+ full_path src_path) None
               [("Destination", "/remote.php/webdav" +:+ full_path dest_path)] [] in
  let st := fst (fst (serve (backend w) req)) in
  (operation <> "MOVE" -> operation <> "COPY" ->
   exists msg, _do_dav_move_copy self src_path dest_path operation w
               = (inl (NotImplementedError msg), w)) /\
  (url self <> "" ->
   operation = "MOVE" \/ operation = "COPY" -> st <> 201 -> st <> 204 ->
   exists w', _do_dav_move_copy self src_path dest_path operation w
              = (inl (IntraCopyError st), w') /\
              trace w' = (trace w ++ [Sent req])%list /\
              opened w' = opened w).
Proof.
  cbv zeta. unfold _do_dav_move_copy. split.
  - intros Hm Hc. apply String.eqb_neq in Hm, Hc. rewrite Hm, Hc. simpl. eauto.
  - intros _ Hop H201 H204.
    assert (negb (String.eqb operation "MOVE") && negb (String.eqb operation "COPY")
            = false) as ->
      by (destruct Hop as [-> | ->]; reflexivity).
    run.
    destruct (serve (backend w)
                (mkRequest operation (_webdav_url_ self +:+ full_path src_path) None
                   [("Destination", "/remote.php/webdav" +:+ full_path dest_path)] []))
      as [[st body] b']. simpl in *. unfold status_in. simpl.
    apply Z.eqb_neq in H201, H204. rewrite H201, H204. simpl. eauto.
Qed.

(** After a successful intra copy or move to a file, the metadata returned
    is that of the destination itself, a single object, fetched after the
    transfer; the flag is true exactly when the server answered 201. *)
Theorem intra_transfer_to_file_returns_its_metadata (self : NextcloudProvider)
  (src_path dest_path : WaterButlerPath) (operation : string) (w w' : world)
  (meta : meta_result) (created : bool) :
  _do_dav_move_copy self src_path dest_path operation w = (inr (meta, created), w') ->
  is_folder dest_path = false ->
  let req := mkRequest operation (_webdav_url_ self +:+ full_path src_path) None
               [("Destination", "/remote.php/webdav" +:+ full_path dest_path)] [] in
  (operation = "MOVE" \/ operation = "COPY") /\
  (created = true <-> fst (fst (serve (backend w) req)) = 201) /\
  (created = false <-> fst (fst (serve (backend w) req)) = 204) /\
  exists w1 m, metadata_ self dest_path w1 = (inr (MetaOne m), w') /\ meta = MetaOne m.
Proof.
  intros H Hfile. cbv zeta. unfold _do_dav_move_copy in H.
  destruct (String.eqb_spec operation "MOVE") as [Hm|Hm];
    destruct (String.eqb_spec operation "COPY") as [Hc|Hc]; simpl in H;
    try discriminate.
  all: apply bind_inr in H as (resp & w0 & Hreq & H);
    apply bind_inr in H as ([] & w1 & Hrel & H);
    apply bind_inr in H as (file_meta & w2 & Hfm & H);
    apply bind_inr in H as (meta' & w3 & Hsel & H);
    apply ret_inr in H as [H <-]; injection H as -> <-;
    rewrite Hfile in Hsel; apply ret_inr in Hsel as [<- <-];
    destruct (make_request_inr _ _ _ _ _ _ Hreq) as (Hst & _ & Hin & _);
    rewrite <- Hst; unfold status_in in Hin; simpl in Hin;
    rewrite !orb_true_iff, !Z.eqb_eq in Hin;
    destruct (metadata_of_file self dest_path w1 w2 file_meta Hfile Hfm) as [m ->];
    (split; [auto|]);
    (split; [rewrite Z.eqb_eq; reflexivity|]);
    (split; [|eauto]);
    rewrite Z.eqb_neq; destruct Hin as [E|[E|E]]; try discriminate; rewrite E;
    split; congruence.
Qed.

(** For a provider with a non-empty host, a [PUT] that the server answers
    with a status other than 201 and 204 makes [upload] raise [UploadError]
    with that status: no metadata is queried and nothing stays open. *)
Theorem failed_upload_raises_UploadError (self : NextcloudProvider) (stream : stream)
  (path : WaterButlerPath) (conflict : string) (w : world) :
  url self <> "" ->
  truthy (identifier path) && String.eqb conflict "keep" = false ->
  let st := fst (fst (serve (backend w) (put_request self stream path))) in
  st <> 201 -> st <> 204 ->
  exists w', upload self stream path conflict w = (inl (UploadError st), w') /\
             trace w' = (trace w ++ [Sent (put_request self stream path)])%list /\
             opened w' = opened w.
Proof.
  intros _ Hplain st H201 H204. subst st. unfold upload.
  rewrite (bind_run _ _ _ _ _ (upload_destination_plain self path conflict w Hplain)).
  run.
  destruct (serve (backend w) (put_request self stream path)) as [[st body] b'].
  simpl in *. unfold status_in. simpl.
  apply Z.eqb_neq in H201, H204. rewrite H201, H204. simpl. eauto.
Qed.

(** *** [download] *)

Local Abbreviation download := (download serve parse_dav_response parse_checksum_response).

(** Without a revision, and for a provider with a non-empty host,
    [download] sends one [GET].  On 200 or 206 it
    returns the response without releasing it: the response is still open
    when [download] returns, for the stream reader to consume.  Any other
    status is raised as [DownloadError] and nothing stays open. *)
Theorem download_hands_over_the_open_response (self : NextcloudProvider)
  (path : WaterButlerPath) (w : world) :
  url self <> "" ->
  let req := plain "GET" (_webdav_url_ self +:+ full_path path) in
  let st := fst (fst (serve (backend w) req)) in
  (st = 200 \/ st = 206 ->
   exists resp w', download self path None w = (inr resp, w') /\
                   status resp = st /\
                   opened w' = handle resp :: opened w /\
                   trace w' = (trace w ++ [Sent req])%list) /\
  (st <> 200 -> st <> 206 ->
   exists w', download self path None w = (inl (DownloadError st), w') /\
              opened w' = opened w).
Proof.
  intros _. cbv zeta. unfold download. run.
  destruct (serve (backend w) (plain "GET" (_webdav_url_ self +:+ full_path path)))
    as [[st body] b']. simpl. unfold status_in. simpl. split.
  - intros [-> | ->]; simpl; eexists _, _; repeat split.
  - intros H200 H206. apply Z.eqb_neq in H200, H206. rewrite H200, H206. simpl. eauto.
Qed.

(** *** Listings and checksums *)

Lemma mapM_add_checksum_plain (self : NextcloudProvider) (items : list metadata)
  (w : world) :
  NAME self <> "nextcloudinstitutions" ->
  mapM (add_checksum self) items w = (inr items, w).
Proof.
  intros Hname. apply String.eqb_neq in Hname.
  induction items as [|i items IH]; [reflexivity|].
  simpl. unfold bind. unfold add_checksum at 1. rewrite Hname, andb_false_r.
  unfold ret at 1. rewrite IH. reflexivity.
Qed.

(** A provider that is not [nextcloudinstitutions] never calls the checksum
    API: a listing sends the one [PROPFIND], and when it returns, it returns
    the empty list on 204 and exactly the items of the parser on 207. *)
Theorem plain_listing_is_the_parsed_answer (self : NextcloudProvider)
  (path : WaterButlerPath) (skip_first : bool) (w w' : world) (items : list metadata) :
  NAME self <> "nextcloudinstitutions" ->
  _metadata_folder self path skip_first w = (inr items, w') ->
  let req := plain "PROPFIND" (_webdav_url_ self +:+ full_path path) in
  let answer := fst (serve (backend w) req) in
  (fst answer = 204 /\ items = [] \/
   fst answer = 207 /\
   parse_dav_response (NAME self) (snd answer) (prov_folder self) skip_first = inr items) /\
  trace w' = (trace w ++ [Sent req; Released (next_handle w)])%list /\
  backend w' = snd (serve (backend w) req).
Proof.
  intros Hname H. cbv zeta. unfold _metadata_folder in H.
  apply bind_inr in H as (resp & w0 & Hreq & H).
  apply bind_inr in H as (l & w1 & Hparse & H).
  apply bind_inr in H as ([] & w2 & Hrel & H).
  rewrite mapM_add_checksum_plain in H by assumption. injection H as <- <-.
  unfold make_request in Hreq.
  destruct (serve (backend w) (plain "PROPFIND" (_webdav_url_ self +:+ full_path path)))
    as [[st body] b'] eqn:Hs. simpl.
  destruct (status_in st [204; 207]) eqn:Hin; [|discriminate].
  injection Hreq as <- <-. simpl in *.
  apply status_in_listing in Hin.
  unfold release in Hrel. injection Hrel as <-. simpl.
  split; [|split; [|]].
  - destruct (Z.eqb_spec st 207) as [E|E].
    + right. unfold lift in Hparse. injection Hparse as Hp <-. auto.
    + left. apply ret_inr in Hparse as [<- _]. split; [lia|reflexivity].
  - destruct (Z.eqb st 207).
    + unfold lift in Hparse. injection Hparse as _ <-. simpl.
      rewrite <- app_assoc. reflexivity.
    + apply ret_inr in Hparse as [_ <-]. simpl. rewrite <- app_assoc. reflexivity.
  - destruct (Z.eqb st 207).
    + unfold lift in Hparse. injection Hparse as _ <-. reflexivity.
    + apply ret_inr in Hparse as [_ <-]. reflexivity.
Qed.




(** *** Revisions *)

(** For a provider with a non-empty host: when the listing of the path does
    not hold exactly one item (204, or a 207 body with no item or with
    several), [revisions] returns one revision
    per listed item, in order, the empty list included, and the versions end
    point is not queried. *)
Theorem revisions_without_single_item_skip_the_versions (self : NextcloudProvider)
  (path : WaterButlerPath) (w : world) (items : list metadata) :
  url self <> "" ->
  let req := mkRequest "PROPFIND" (_webdav_url_ self +:+ full_path path)
                       (Some revision_query) [] [] in
  let answer := fst (serve (backend w) req) in
  (fst answer = 204 /\ items = [] \/
   fst answer = 207 /\
   parse_dav_response (NAME self) (snd answer) (prov_folder self) false = inr items) ->
  length items <> 1%nat ->
  exists w',
    revisions self path w
    = (inr (map (fun r => from_metadata (NAME self) (etag_noquote r) r) items), w') /\
    trace w' = (trace w ++ [Sent req; Released (next_handle w)])%list.
Proof.
  intros _. cbv zeta. intros Hans Hlen. unfold revisions, _metadata_revision. run.
  destruct (serve (backend w)
              (mkRequest "PROPFIND" (_webdav_url_ self +:+ full_path path)
                         (Some revision_query) [] [])) as [[st body] b'].
  simpl in Hans.
  assert (status_in st [204; 207] = true) as -> by (apply status_in_listing; tauto).
  simpl. destruct Hans as [[-> ->] | [-> Hp]]; simpl.
  - eexists. split; [reflexivity|]. simpl. rewrite <- app_assoc. reflexivity.
  - rewrite Hp. simpl.
    destruct items as [|a [|b l]]; simpl in *; try congruence;
      (eexists; split; [reflexivity|]; simpl; rewrite <- app_assoc; reflexivity).
Qed.

(** A file whose versions end point answers 404 or 204 has exactly one
    revision, the current file itself, versioned by its etag without quotes
    (for a provider that is not [nextcloudinstitutions] and has a non-empty
    host). *)
Theorem revisions_of_file_without_versions (self : NextcloudProvider)
  (path : WaterButlerPath) (w : world) (item : metadata) (user : string) :
  url self <> "" ->
  NAME self <> "nextcloudinstitutions" ->
  let req1 := mkRequest "PROPFIND" (_webdav_url_ self +:+ full_path path)
                        (Some revision_query) [] [] in
  let a1 := serve (backend w) req1 in
  fst (fst a1) = 207 ->
  parse_dav_response (NAME self) (snd (fst a1)) (prov_folder self) false = inr [item] ->
  credentials self !! "username" = Some (PStr user) ->
  let req2 := plain "PROPFIND" (_dav_url_ self +:+ "versions/" +:+ user
                                +:+ "/versions/" +:+ fileid item) in
  let a2 := serve (snd a1) req2 in
  fst (fst a2) = 404 \/ fst (fst a2) = 204 ->
  exists w',
    revisions self path w
    = (inr [from_metadata (NAME self) (etag_noquote item) item], w') /\
    trace w' = (trace w ++ [Sent req1; Released (next_handle w);
                            Sent req2; Released (S (next_handle w))])%list.
Proof.
  intros _. cbv zeta. intros Hname Hst Hp Huser Hver. apply String.eqb_neq in Hname.
  unfold revisions, _metadata_revision, getstr. run.
  destruct (serve (backend w)
              (mkRequest "PROPFIND" (_webdav_url_ self +:+ full_path path)
                         (Some revision_query) [] [])) as [[st body] b'].
  simpl in *. subst st. change (status_in 207 [204; 207]) with true. simpl.
  rewrite Hp. simpl. rewrite Hname. simpl. rewrite Huser. simpl.
  destruct (serve b' (plain "PROPFIND" (_dav_url_ self +:+ "versions/" +:+ user
                                        +:+ "/versions/" +:+ fileid item)))
    as [[st2 body2] b2]. simpl in *.
  destruct Hver as [-> | ->].
  - change (status_in 404 [204; 207; 404]) with true. simpl. rewrite ?Hname. simpl.
    eexists. split; [reflexivity|]. simpl. rewrite <- !app_assoc. reflexivity.
  - change (status_in 204 [204; 207; 404]) with true. simpl. rewrite ?Hname. simpl.
    eexists. split; [reflexivity|]. simpl. rewrite <- !app_assoc. reflexivity.
Qed.

End ProviderFacts.

(** ** Storage roots and intra-provider transfers *)

(** C3: two providers bound to different accounts (different credentials)
    never share a storage root, whatever their settings, the same base
    folder included, and a transfer between them is not an intra-provider
    one: [can_intra_copy] and [can_intra_move] are false; they are true only
    for providers that are equal. *)
Theorem different_accounts_do_not_share_storage_root (A A' : NextcloudProvider) :
  (credentials A <> credentials A' ->
   shares_storage_root A A' = false /\
   can_intra_copy A A' = false /\
   can_intra_move A A' = false) /\
  (can_intra_copy A A' = true \/ can_intra_move A A' = true -> provider_eq A A' = true).
Proof.
  split.
  - intros Hcred.
    assert (bool_decide (credentials A = credentials A') = false) as Hd
      by (apply bool_decide_eq_false; assumption).
    unfold shares_storage_root, can_intra_copy, can_intra_move, provider_eq.
    rewrite Hd, !andb_false_r. auto.
  - unfold can_intra_copy, can_intra_move. intros [H|H]; exact H.
Qed.

(** ** Construction of a provider *)

Lemma endswith_slash_app_slash (s : string) : endswith_slash (s +:+ "/") = true.
Proof.
  induction s as [|c s IH]; [reflexivity|].
  change (String c s +:+ "/") with (String c (s +:+ "/")).
  destruct s as [|d s]; [reflexivity|]. exact IH.
Qed.

Lemma string_app_assoc (a b c : string) : (a +:+ b) +:+ c = a +:+ (b +:+ c).
Proof.
  induction a as [|x a IH]; [reflexivity|].
  change (String x ((a +:+ b) +:+ c) = String x (a +:+ (b +:+ c))). rewrite IH. reflexivity.
Qed.

(** A provider that [__init__] builds has a folder that ends with a slash:
    the folder of the settings as it is when it ends with one, with one
    slash appended otherwise.  It keeps the credentials and the settings it
    was given, the host is its URL, and all five required keys were there. *)
Theorem init_normalises_the_folder (nm : string) (au cr st : gmap string pyval)
  (p : NextcloudProvider) :
  NextcloudProvider_init nm au cr st = inr p ->
  endswith_slash (prov_folder p) = true /\
  (exists f, st !! "folder" = Some (PStr f) /\
             prov_folder p = (if endswith_slash f then f else f +:+ "/")) /\
  st !! "verify_ssl" = Some (verify_ssl p) /\
  cr !! "host" = Some (PStr (url p)) /\
  cr !! "username" = Some (fst (_auth p)) /\
  cr !! "password" = Some (snd (_auth p)) /\
  NAME p = nm /\ credentials p = cr /\ settings p = st.
Proof.
  unfold NextcloudProvider_init, getitem.
  destruct (st !! "folder") as [[f|b]|] eqn:Hf; try discriminate.
  destruct (st !! "verify_ssl") as [vs|] eqn:Hv; try discriminate.
  destruct (cr !! "host") as [[h|b]|] eqn:Hh; try discriminate.
  destruct (cr !! "username") as [u|] eqn:Hu;
    destruct (cr !! "password") as [pw|] eqn:Hp; try discriminate.
  intros [= <-]. simpl. repeat split; try reflexivity.
  - destruct (endswith_slash f) eqn:E; [assumption|apply endswith_slash_app_slash].
  - exists f. split; reflexivity.
Qed.

(** [__init__] fails with the [KeyError] of the first required key that is
    missing, in the order [folder], [verify_ssl], [host], [username],
    [password]. *)
Theorem init_raises_KeyError_of_first_missing_key (nm : string)
  (au cr st : gmap string pyval) (f h : string) (vs u : pyval) :
  (st !! "folder" = None ->
   NextcloudProvider_init nm au cr st = inl (KeyError "folder")) /\
  (st !! "folder" = Some (PStr f) -> st !! "verify_ssl" = None ->
   NextcloudProvider_init nm au cr st = inl (KeyError "verify_ssl")) /\
  (st !! "folder" = Some (PStr f) -> st !! "verify_ssl" = Some vs ->
   cr !! "host" = None ->
   NextcloudProvider_init nm au cr st = inl (KeyError "host")) /\
  (st !! "folder" = Some (PStr f) -> st !! "verify_ssl" = Some vs ->
   cr !! "host" = Some (PStr h) -> cr !! "username" = None ->
   NextcloudProvider_init nm au cr st = inl (KeyError "username")) /\
  (st !! "folder" = Some (PStr f) -> st !! "verify_ssl" = Some vs ->
   cr !! "host" = Some (PStr h) -> cr !! "username" = Some u ->
   cr !! "password" = None ->
   NextcloudProvider_init nm au cr st = inl (KeyError "password")).
Proof.
  unfold NextcloudProvider_init, getitem.
  repeat split; intros; repeat match goal with H : _ !! _ = _ |- _ => rewrite H; clear H end;
    reflexivity.
Qed.

(** The end points do not depend on whether a non-empty host is written
    with a trailing slash: the WebDAV, DAV and OCS URLs of a host and of the
    same host followed by a slash are the same, with a single slash before
    the end point. *)
Theorem endpoints_ignore_trailing_slash_of_host (p q : NextcloudProvider) :
  url p <> "" ->
  endswith_slash (url p) = false ->
  url q = url p +:+ "/" ->
  _webdav_url_ q = _webdav_url_ p /\
  _dav_url_ q = _dav_url_ p /\
  _ocs_url q = _ocs_url p /\
  _webdav_url_ p = url p +:+ "/remote.php/webdav/".
Proof.
  intros _ Hp Hq. unfold _webdav_url_, _dav_url_, _ocs_url.
  rewrite Hq, endswith_slash_app_slash, Hp, !string_app_assoc. repeat split.
Qed.

(** ** The provider against the example servers *)

Import Fixture.

(** the example server follows the [PUT] convention *)
Lemma Dav_put_convention (b : Dav.store) (req : request) :
  method req = "PUT" ->
  (fst (fst (Dav.serve b req)) = 201 -> Dav.holds b (req_url req) = false) /\
  (fst (fst (Dav.serve b req)) = 204 -> Dav.holds b (req_url req) = true).
Proof.
  intros Hm. unfold Dav.serve, Dav.holds. rewrite Hm. simpl.
  destruct (Dav.find_res (Dav.key_of (req_url req)) b); simpl; split; intros H;
    try reflexivity; discriminate.
Qed.

(** Counterexample to C1 as it is stated: [/a] resolves to an existing object, the
    folder [/a/], and yet [validate_v1_path] raises [NotFoundError] where
    [validate_path] returns a path. *)
Lemma validations_disagree_on_folder_named_without_slash :
  exists item,
    resolves_to Dav.serve Dav.parse_dav_response alice "/a" (Dav.init store0) item /\
    m_kind item = folder /\
    (exists msg w',
       validate_v1_path Dav.serve Dav.parse_dav_response alice "/a" (Dav.init store0)
       = (inl (NotFoundError msg), w')) /\
    (exists p w',
       validate_path Dav.serve Dav.parse_dav_response alice "/a" (Dav.init store0)
       = (inr p, w')).
Proof.
  eexists. split; [|split; [|split]].
  - split; [discriminate|]. split; [right; reflexivity|].
    eexists. vm_compute. reflexivity.
  - reflexivity.
  - eexists _, _. vm_compute. reflexivity.
  - eexists _, _. vm_compute. reflexivity.
Qed.

Lemma validations_agree_witness :
  (exists w',
     validate_v1_path Dav.serve Dav.parse_dav_response alice "/a/" (Dav.init store0)
     = (inr a_dir, w') /\
     validate_path Dav.serve Dav.parse_dav_response alice "/a/" (Dav.init store0)
     = (inr a_dir, w')) /\
  ((exists msg w',
      validate_v1_path Dav.serve Dav.parse_dav_response alice "/c/" (Dav.init store0)
      = (inl (NotFoundError msg), w')) /\
   exists w',
     validate_path Dav.serve Dav.parse_dav_response alice "/c/" (Dav.init store0)
     = (inr c_dir, w')) /\
  ((exists msg w',
      validate_v1_path Dav.serve Dav.parse_dav_response alice "/a/b.txt/" (Dav.init store0)
      = (inl (NotFoundError msg), w')) /\
   exists w',
     validate_path Dav.serve Dav.parse_dav_response alice "/a/b.txt/" (Dav.init store0)
     = (inr (new_WaterButlerPath "/a/b.txt/" "/"), w')).
Proof.
  split; [|split].
  - destruct (validations_agree_on_matching_kind Dav.serve Dav.parse_dav_response
                alice "/a/" (Dav.init store0)) as (_ & H & _).
    eapply H.
    + discriminate.
    + split; [discriminate|]. split; [right; reflexivity|].
      eexists. vm_compute. reflexivity.
    + reflexivity.
  - destruct (validations_agree_on_matching_kind Dav.serve Dav.parse_dav_response
                alice "/c/" (Dav.init store0)) as (_ & _ & H & _).
    apply H.
    + discriminate.
    + split; [discriminate|]. left. reflexivity.
    + intros e He. vm_compute in He. injection He as <-. reflexivity.
  - destruct (validations_agree_on_matching_kind Dav.serve Dav.parse_dav_response
                alice "/a/b.txt/" (Dav.init store0)) as (_ & _ & _ & H).
    eapply H.
    + discriminate.
    + split; [discriminate|]. split; [right; reflexivity|].
      eexists. vm_compute. reflexivity.
    + discriminate.
Defined.

Lemma metadata_leak_witness :
  exists w',
    metadata_ Script.serve Dav.parse_dav_response Dav.parse_checksum_response
              alice a_dir (Script.init [(207, Dav.Garbled)])
    = (inl (ForeignError "ParseError"), w') /\
    opened w' = [0%nat] /\
    trace w' = [Sent (plain "PROPFIND" "h/remote.php/webdav//a/")].
Proof.
  apply (metadata_leaves_response_open_when_parser_raises
           Script.serve Dav.parse_dav_response Dav.parse_checksum_response
           alice a_dir (Script.init [(207, Dav.Garbled)]) (ForeignError "ParseError"));
    reflexivity.
Defined.

Lemma different_accounts_witness :
  settings alice = settings bob /\
  shares_storage_root alice bob = false /\
  can_intra_copy alice bob = false /\
  can_intra_move alice bob = false.
Proof.
  split; [reflexivity|].
  apply (proj1 (different_accounts_do_not_share_storage_root alice bob)).
  intros H. apply (f_equal (fun m => m !! "username")) in H.
  vm_compute in H. discriminate.
Defined.

Lemma not_found_witness :
  exists msg w',
    validate_v1_path Dav.serve Dav.parse_dav_response alice "/c/" (Dav.init store0)
    = (inl (NotFoundError msg), w').
Proof.
  assert (url alice <> "") as Hurl by discriminate.
  apply (proj2 (validate_v1_path_not_found_iff Dav.serve Dav.parse_dav_response
                  alice "/c/" (Dav.init store0) Hurl)).
  left. split; [discriminate|]. left. reflexivity.
Defined.

(** The input on which [upload] fails C5: under [keep], with [b.txt] in
    place and the path that [validate_path] builds for it, the [PUT] goes to
    [b.txt] itself; the object in place is overwritten and nothing is created
    next to it. *)
Lemma upload_keep_without_identifier_overwrites :
  Dav.holds store0 (_webdav_url_ alice +:+ full_path b_txt) = true /\
  exists meta w',
    upload Dav.serve Dav.parse_dav_response Dav.parse_checksum_response
           alice five b_txt "keep" (Dav.init store0)
    = (inr (meta, false), w') /\
    nth_error (trace w') 0 = Some (Sent (put_request alice five b_txt)) /\
    Dav.find_res (dav "/a/b.txt") (backend w') = Some (file, "abcde") /\
    length (backend w') = length store0.
Proof.
  split; [reflexivity|]. eexists _, _. split; [vm_compute; reflexivity|].
  repeat split.
Qed.

Lemma upload_keep_overwrites_witness :
  exists meta w',
    upload Dav.serve Dav.parse_dav_response Dav.parse_checksum_response
           alice five b_txt "keep" (Dav.init store0)
    = (inr (meta, false), w').
Proof.
  destruct (upload Dav.serve Dav.parse_dav_response Dav.parse_checksum_response
                   alice five b_txt "keep" (Dav.init store0))
    as [[e|[meta created]] w'] eqn:E.
  { vm_compute in E. discriminate. }
  destruct (upload_under_keep_never_renames_a_built_path
              Dav.serve Dav.parse_dav_response Dav.parse_checksum_response
              alice five "/a/b.txt" "/" (Dav.init store0)) as (_ & _ & _ & H).
  rewrite (H meta created w' E eq_refl). eauto.
Defined.

Lemma upload_keep_witness :
  exists w1,
    upload_destination Dav.serve Dav.parse_dav_response Dav.parse_checksum_response
                       alice b_txt_identified "keep" (Dav.init store0)
    = (inr (mkPath "/" [mkPart "" None; mkPart "a" None; mkPart "b (2).txt" None] false),
       w1).
Proof.
  destruct (_metadata_folder Dav.serve Dav.parse_dav_response Dav.parse_checksum_response
              alice (parent b_txt_identified) true (Dav.init store0))
    as [[e|siblings] w1] eqn:Hls.
  { vm_compute in Hls. discriminate. }
  pose proof Hls as Hls'. vm_compute in Hls'. injection Hls' as Hs Hw.
  exists w1.
  destruct (proj1 (upload_keep_renames_identified_path
                     Dav.serve Dav.parse_dav_response Dav.parse_checksum_response
                     alice five b_txt_identified (Dav.init store0)) w1 siblings)
    as (Hd & _).
  - reflexivity.
  - exact Hls.
  - rewrite <- Hs. vm_compute. reflexivity.
  - rewrite Hd. rewrite <- Hs. vm_compute. reflexivity.
Defined.

Lemma upload_created_witness :
  exists m,
    fst (upload Dav.serve Dav.parse_dav_response Dav.parse_checksum_response
                alice ten b_txt "replace" (Dav.init empty_a))
    = inr (MetaOne m, true) /\
    m_size m = Some 10.
Proof.
  destruct (upload Dav.serve Dav.parse_dav_response Dav.parse_checksum_response
                   alice ten b_txt "replace" (Dav.init empty_a))
    as [[e|[meta created]] w'] eqn:E.
  { vm_compute in E. discriminate. }
  destruct (upload_returns_metadata_and_created_flag
              Dav.serve Dav.parse_dav_response Dav.parse_checksum_response
              Dav.holds Dav_put_convention _ _ _ _ _ _ _ _ E)
    as (dest & w1 & resp & w2 & w3 & Hdest & _ & _ & _ & _ & Hfile & Hc & _).
  destruct (Hfile eq_refl) as [m ->].
  vm_compute in Hdest. injection Hdest as <- <-.
  exists m. split.
  - simpl. f_equal. f_equal. apply Hc. reflexivity.
  - vm_compute in E. injection E as <- _ _. reflexivity.
Defined.

(** the scenario of the specification: 10 bytes uploaded to the free name
    [/a/b.txt] are reported as created with size 10, 5 bytes uploaded to the
    same name afterwards as not created with size 5 *)
Example upload_scenario :
  let up := upload Dav.serve Dav.parse_dav_response Dav.parse_checksum_response in
  exists m1 w1 m2 w2,
    up alice ten b_txt "replace" (Dav.init empty_a) = (inr (MetaOne m1, true), w1) /\
    m_size m1 = Some 10 /\
    up alice five b_txt "replace" w1 = (inr (MetaOne m2, false), w2) /\
    m_size m2 = Some 5.
Proof.
  cbv zeta. eexists _, _, _, _. split; [vm_compute; reflexivity|].
  split; [reflexivity|]. split; [vm_compute; reflexivity|]. reflexivity.
Qed.

Lemma intra_copy_witness :
  exists meta created w' m fl,
    _do_dav_move_copy Dav.serve Dav.parse_dav_response Dav.parse_checksum_response
                      alice a_dir c_dir "COPY" (Dav.init store0)
    = (inr (meta, created), w') /\
    meta = MetaOne (set_children m fl) /\
    materialized_path m = "/c/".
Proof.
  destruct (_do_dav_move_copy Dav.serve Dav.parse_dav_response Dav.parse_checksum_response
                              alice a_dir c_dir "COPY" (Dav.init store0))
    as [[e|[meta created]] w'] eqn:E.
  { vm_compute in E. discriminate. }
  destruct (intra_transfer_to_folder_returns_child_by_materialized_path
              Dav.serve Dav.parse_dav_response Dav.parse_checksum_response
              _ _ _ _ _ _ _ _ E eq_refl)
    as (w1 & w2 & fl & pl & m & rest & _ & _ & _ & _ & Hmp & Hmeta & _).
  exists meta, created, w', m, fl. split; [reflexivity|]. split; [assumption|].
  rewrite Hmp. reflexivity.
Defined.

Lemma empty_listing_witness :
  exists w',
    metadata_ Script.serve Dav.parse_dav_response Dav.parse_checksum_response
              alice b_txt (Script.init [(204, Dav.NoBody)])
    = (inl IndexError, w').
Proof.
  apply (metadata_of_file_with_empty_listing_raises_IndexError
           Script.serve Dav.parse_dav_response Dav.parse_checksum_response
           alice b_txt (Script.init [(204, Dav.NoBody)])).
  - reflexivity.
  - left. reflexivity.
Defined.

(** ** The further properties on the example servers *)

Lemma fresh_init (s : Dav.store) : handles_fresh (Dav.init s).
Proof. constructor. Qed.

Lemma fresh_script (q : list (Z * Dav.body)) : handles_fresh (Script.init q).
Proof. constructor. Qed.

Lemma unexpected_status_witness :
  exists w',
    validate_path Script.serve Dav.parse_dav_response alice "/a"
                  (Script.init [(500, Dav.NoBody)])
    = (inl (MetadataError 500), w').
Proof.
  destruct (validate_path_never_raises_NotFoundError
              Script.serve Dav.parse_dav_response alice "/a"
              (Script.init [(500, Dav.NoBody)])) as (_ & _ & H).
  destruct H as (w' & H & _); [discriminate|discriminate|reflexivity|].
  exists w'. exact H.
Defined.

Lemma delete_witness :
  (exists w', delete_ Dav.serve alice b_txt (Dav.init store0) = (inr tt, w') /\
              opened w' = []) /\
  (exists w', delete_ Dav.serve alice b_txt (Dav.init empty_a)
              = (inl (DeleteError 404), w')).
Proof.
  assert (url alice <> "") as Hurl by discriminate.
  split.
  - destruct (proj1 (delete_succeeds_exactly_on_204 Dav.serve alice b_txt
                       (Dav.init store0) Hurl (fresh_init store0)) eq_refl)
      as (w' & H & _ & Ho). eauto.
  - destruct (proj2 (delete_succeeds_exactly_on_204 Dav.serve alice b_txt
                       (Dav.init empty_a) Hurl (fresh_init empty_a)))
      as (w' & H & _); [discriminate|]. eauto.
Defined.

Lemma create_folder_conflict_witness :
  (exists w',
     create_folder Dav.serve Dav.parse_dav_response Dav.parse_checksum_response
                   alice a_dir (Dav.init store0)
     = (inl (FolderNamingConflict "a"), w')) /\
  (exists w',
     create_folder Script.serve Dav.parse_dav_response Dav.parse_checksum_response
                   alice a_dir (Script.init [(507, Dav.NoBody)])
     = (inl (CreateFolderError 507), w')).
Proof.
  assert (url alice <> "") as Hurl by discriminate.
  split.
  - destruct (proj1 (create_folder_conflict_on_405
                       Dav.serve Dav.parse_dav_response Dav.parse_checksum_response
                       alice a_dir (Dav.init store0) Hurl) eq_refl) as (w' & H & _). eauto.
  - destruct (proj2 (create_folder_conflict_on_405
                       Script.serve Dav.parse_dav_response Dav.parse_checksum_response
                       alice a_dir (Script.init [(507, Dav.NoBody)]) Hurl))
      as (w' & H & _); [discriminate|discriminate|]. eauto.
Defined.

Lemma create_folder_witness :
  exists m w',
    create_folder Dav.serve Dav.parse_dav_response Dav.parse_checksum_response
                  alice c_dir (Dav.init store0) = (inr m, w') /\
    m_path m = "/c/" /\ m_kind m = folder.
Proof.
  destruct (create_folder Dav.serve Dav.parse_dav_response Dav.parse_checksum_response
                          alice c_dir (Dav.init store0)) as [[e|m] w'] eqn:E.
  { vm_compute in E. discriminate. }
  destruct (create_folder_returns_entry_of_parent
              Dav.serve Dav.parse_dav_response Dav.parse_checksum_response _ _ _ _ _ E)
    as (_ & w1 & l & _ & _ & Hp).
  exists m, w'. split; [reflexivity|]. split; [rewrite Hp; reflexivity|].
  vm_compute in E. injection E as <- _. reflexivity.
Defined.

Lemma failed_transfer_witness :
  (exists msg,
     _do_dav_move_copy Dav.serve Dav.parse_dav_response Dav.parse_checksum_response
                       alice a_dir c_dir "LINK" (Dav.init store0)
     = (inl (NotImplementedError msg), Dav.init store0)) /\
  (exists w',
     _do_dav_move_copy Dav.serve Dav.parse_dav_response Dav.parse_checksum_response
                       alice c_dir a_dir "MOVE" (Dav.init store0)
     = (inl (IntraCopyError 404), w')).
Proof.
  split.
  - apply (proj1 (failed_transfer_raises_IntraCopyError
                    Dav.serve Dav.parse_dav_response Dav.parse_checksum_response
                    alice a_dir c_dir "LINK" (Dav.init store0))); discriminate.
  - destruct (proj2 (failed_transfer_raises_IntraCopyError
                       Dav.serve Dav.parse_dav_response Dav.parse_checksum_response
                       alice c_dir a_dir "MOVE" (Dav.init store0)))
      as (w' & H & _); [discriminate|left; reflexivity|discriminate|discriminate|].
    eauto.
Defined.

Lemma intra_move_of_file_witness :
  exists m w',
    _do_dav_move_copy Dav.serve Dav.parse_dav_response Dav.parse_checksum_response
                      alice b_txt (new_WaterButlerPath "/a/c.txt" "/") "MOVE"
                      (Dav.init store0)
    = (inr (MetaOne m, true), w').
Proof.
  destruct (_do_dav_move_copy Dav.serve Dav.parse_dav_response Dav.parse_checksum_response
                              alice b_txt (new_WaterButlerPath "/a/c.txt" "/") "MOVE"
                              (Dav.init store0)) as [[e|[meta created]] w'] eqn:E.
  { vm_compute in E. discriminate. }
  destruct (intra_transfer_to_file_returns_its_metadata
              Dav.serve Dav.parse_dav_response Dav.parse_checksum_response
              _ _ _ _ _ _ _ _ E eq_refl) as (_ & Hc & _ & w1 & m & _ & ->).
  exists m, w'. assert (created = true) as -> by (apply (proj2 Hc); reflexivity).
  reflexivity.
Defined.

Lemma failed_upload_witness :
  exists w',
    upload Script.serve Dav.parse_dav_response Dav.parse_checksum_response
           alice ten b_txt "replace" (Script.init [(507, Dav.NoBody)])
    = (inl (UploadError 507), w').
Proof.
  destruct (failed_upload_raises_UploadError
              Script.serve Dav.parse_dav_response Dav.parse_checksum_response
              alice ten b_txt "replace" (Script.init [(507, Dav.NoBody)]))
    as (w' & H & _); [discriminate|reflexivity|discriminate|discriminate|]. eauto.
Defined.

Lemma download_witness :
  (exists resp w',
     download Script.serve Dav.parse_dav_response Dav.parse_checksum_response
              alice b_txt None (Script.init [(206, Dav.NoBody)]) = (inr resp, w') /\
     opened w' = [handle resp]) /\
  (exists w',
     download Script.serve Dav.parse_dav_response Dav.parse_checksum_response
              alice b_txt None (Script.init [(404, Dav.NotFoundBody)])
     = (inl (DownloadError 404), w')).
Proof.
  assert (url alice <> "") as Hurl by discriminate.
  split.
  - destruct (proj1 (download_hands_over_the_open_response
                       Script.serve Dav.parse_dav_response Dav.parse_checksum_response
                       alice b_txt (Script.init [(206, Dav.NoBody)]) Hurl))
      as (resp & w' & H & _ & Ho & _); [right; reflexivity|]. eauto.
  - destruct (proj2 (download_hands_over_the_open_response
                       Script.serve Dav.parse_dav_response Dav.parse_checksum_response
                       alice b_txt (Script.init [(404, Dav.NotFoundBody)]) Hurl))
      as (w' & H & _); [discriminate|discriminate|]. eauto.
Defined.

Lemma plain_listing_witness :
  exists items w',
    _metadata_folder Dav.serve Dav.parse_dav_response Dav.parse_checksum_response
                     alice a_dir true (Dav.init store0) = (inr items, w') /\
    map materialized_path items = ["/a/b.txt"; "/a/b (1).txt"] /\
    length (trace w') = 2%nat.
Proof.
  destruct (_metadata_folder Dav.serve Dav.parse_dav_response Dav.parse_checksum_response
                             alice a_dir true (Dav.init store0))
    as [[e|items] w'] eqn:E.
  { vm_compute in E. discriminate. }
  destruct (plain_listing_is_the_parsed_answer
              Dav.serve Dav.parse_dav_response Dav.parse_checksum_response
              alice a_dir true (Dav.init store0) w' items) as ([[H _]|[_ Hp]] & Ht & _).
  - discriminate.
  - exact E.
  - vm_compute in H. discriminate.
  - exists items, w'. split; [reflexivity|]. split.
    + vm_compute in Hp. injection Hp as <-. reflexivity.
    + rewrite Ht. reflexivity.
Defined.


Lemma revisions_of_empty_listing_witness :
  exists w',
    revisions Script.serve Dav.parse_dav_response Dav.parse_checksum_response
              alice b_txt (Script.init [(204, Dav.NoBody)]) = (inr [], w').
Proof.
  destruct (revisions_without_single_item_skip_the_versions
              Script.serve Dav.parse_dav_response Dav.parse_checksum_response
              alice b_txt (Script.init [(204, Dav.NoBody)]) [])
    as (w' & H & _).
  - discriminate.
  - left. split; reflexivity.
  - discriminate.
  - eauto.
Defined.

Lemma single_revision_witness :
  exists r w',
    revisions Dav.serve Dav.parse_dav_response Dav.parse_checksum_response
              alice b_txt (Dav.init store0) = (inr [r], w') /\
    rev_version r = "0123456789".
Proof.
  destruct (revisions_of_file_without_versions
              Dav.serve Dav.parse_dav_response Dav.parse_checksum_response
              alice b_txt (Dav.init store0)
              (Dav.item_of "/" ("/remote.php/webdav/a/b.txt", file, "0123456789"))
              "alice")
    as (w' & H & _).
  - discriminate.
  - discriminate.
  - reflexivity.
  - reflexivity.
  - reflexivity.
  - left. reflexivity.
  - eexists _, w'. split; [exact H|reflexivity].
Defined.

Lemma init_witness :
  exists p,
    NextcloudProvider_init "nextcloud" ∅ (credentials alice)
      {[ "folder" := PStr "/my_folder"; "verify_ssl" := PBool true ]} = inr p /\
    prov_folder p = "/my_folder/" /\ url p = "h".
Proof.
  destruct (NextcloudProvider_init "nextcloud" ∅ (credentials alice)
              {[ "folder" := PStr "/my_folder"; "verify_ssl" := PBool true ]})
    as [e|p] eqn:E.
  { vm_compute in E. discriminate. }
  destruct (init_normalises_the_folder _ _ _ _ _ E)
    as (_ & (f & Hf & Hfolder) & _ & Hhost & _).
  exists p. split; [reflexivity|].
  vm_compute in Hf. injection Hf as <-.
  vm_compute in Hhost. injection Hhost as Hh.
  split; [exact Hfolder|symmetry; exact Hh].
Defined.

Lemma init_missing_key_witness :
  NextcloudProvider_init "nextcloud" ∅ (credentials alice)
    {[ "folder" := PStr "/my_folder" ]} = inl (KeyError "verify_ssl").
Proof.
  apply (proj1 (proj2 (init_raises_KeyError_of_first_missing_key
                         "nextcloud" ∅ (credentials alice)
                         {[ "folder" := PStr "/my_folder" ]}
                         "/my_folder" "h" (PBool true) (PStr "alice")))).
  - reflexivity.
  - reflexivity.
Defined.

Lemma endpoints_witness :
  _webdav_url_ (mkProvider "nextcloud" ∅ ∅ ∅ "/" (PBool true) "https://cloud.example/"
                           (PStr "u", PStr "p"))
  = "https://cloud.example/remote.php/webdav/".
Proof.
  destruct (endpoints_ignore_trailing_slash_of_host
              (mkProvider "nextcloud" ∅ ∅ ∅ "/" (PBool true) "https://cloud.example"
                          (PStr "u", PStr "p"))
              (mkProvider "nextcloud" ∅ ∅ ∅ "/" (PBool true) "https://cloud.example/"
                          (PStr "u", PStr "p")))
    as (H & _ & _ & H').
  - discriminate.
  - reflexivity.
  - reflexivity.
  - rewrite H, H'. reflexivity.
Defined.
